(** * Campus Connect client screens: route guard, email verification, account deletion

    A shallow embedding of the control logic of
    - the root layout ([RootLayout], the route guard),
    - the email verification screen ([VerifyEmailScreen]: digit entry,
      submit, resend and the cooldown timer),
    - the settings screen ([SettingsScreen]: sign-out and account deletion),
    together with the properties the specification states about them.

    JavaScript values are modelled only as far as the program looks at them:
    an optional string property is [Undefined], [Null] or a string, with
    JavaScript's truthiness; React state is an explicit record threaded
    through a small state/trace/exception monad; every call into the auth
    provider is answered by an explicit record of responses. The
    verification screen is also put on the event loop, where a handler stops
    at its [await] and other events arrive before the call settles. *)

From Stdlib Require Import ZArith Bool Ascii String Lia.
From stdpp Require Import base list.

Open Scope string_scope.
Open Scope list_scope.

(** ** JavaScript values *)

Module Js.

(** A property typed [string | null | undefined]. *)
Inductive JsStr : Type :=
| Undefined
| Null
| Str (s : string).

(** String truthiness: only the empty string is falsy. *)
Definition nonempty (s : string) : bool :=
  match s with
  | EmptyString => false
  | String _ _ => true
  end.

(** [Boolean(v)]. *)
Definition truthy (v : JsStr) : bool :=
  match v with
  | Str s => nonempty s
  | Undefined | Null => false
  end.

(** [v !== null]. *)
Definition strict_ne_null (v : JsStr) : bool :=
  match v with
  | Null => false
  | Undefined | Str _ => true
  end.

(** [v || d] where [d] is a string. *)
Definition or_default (v : JsStr) (d : string) : string :=
  match v with
  | Str s => if nonempty s then s else d
  | Undefined | Null => d
  end.

(** The value caught by a [catch (err: any)]: the handlers read only
    [err.message] and [err.originalError]. *)
Record JsError : Type := mkError {
  message : JsStr;
  originalError : JsStr
}.

(** [new Error(msg)]. *)
Definition Error (msg : string) : JsError :=
  {| message := Str msg; originalError := Undefined |}.

(** The settled state of an awaited promise. *)
Inductive Promise (A : Type) : Type :=
| Resolved (a : A)
| Rejected (e : JsError).
Arguments Resolved {A} a.
Arguments Rejected {A} e.

End Js.
Import Js.

(** ** Data supplied by the auth provider *)

Record User : Type := mkUser {
  user_id : string;
  user_email : string;
  email_confirmed_at : JsStr
}.

(** The guard reads [session.user] defensively ([session.user && ...],
    [session.user?.]), so a session without a user is representable. *)
Record Session : Type := mkSession {
  user : option User
}.

(** [session.user?.email_confirmed_at] *)
Definition user_email_confirmed_at (s : Session) : JsStr :=
  match user s with
  | Some u => email_confirmed_at u
  | None => Undefined
  end.

(** ** The route guard: [RootLayout] *)

Module Layout.

(** [process.env]: each variable is a string or undefined. *)
Record Env : Type := mkEnv {
  EXPO_PUBLIC_SUPABASE_URL : JsStr;
  EXPO_PUBLIC_SUPABASE_ANON_KEY : JsStr
}.

(** What the component returns: the loading view, the setup view, or the
    navigation stack with the [redirect] flags of its two guarded screens
    (as booleans: the prop is tested for truthiness). *)
Inductive View : Type :=
| LoadingView
| SetupRequiredView
| StackView (tabs_redirect auth_redirect : bool).

(** [!session || (session.user && !session.user.email_confirmed_at)] *)
Definition tabs_redirect (session : option Session) : bool :=
  match session with
  | None => true
  | Some s =>
      match user s with
      | Some u => negb (truthy (email_confirmed_at u))
      | None => false
      end
  end.

(** [!!session && session.user?.email_confirmed_at !== null] *)
Definition auth_redirect (session : option Session) : bool :=
  match session with
  | None => false
  | Some s => strict_ne_null (user_email_confirmed_at s)
  end.

Definition RootLayout (session : option Session) (loading : bool) (env : Env) : View :=
  let missingEnvVars :=
    negb (truthy (EXPO_PUBLIC_SUPABASE_URL env))
    || negb (truthy (EXPO_PUBLIC_SUPABASE_ANON_KEY env)) in
  if loading then LoadingView
  else if missingEnvVars then SetupRequiredView
  else StackView (tabs_redirect session) (auth_redirect session).

(** The four screen states of the specification, read off the view: a
    guarded screen of the stack is active when it is not redirected away. *)
Inductive Screen : Type := Loading | SetupRequired | AuthArea | MainArea.

Definition active (v : View) (s : Screen) : bool :=
  match v, s with
  | LoadingView, Loading => true
  | SetupRequiredView, SetupRequired => true
  | StackView _ a, AuthArea => negb a
  | StackView t _, MainArea => negb t
  | _, _ => false
  end.

Definition active_screens (v : View) : list Screen :=
  List.filter (active v) [Loading; SetupRequired; AuthArea; MainArea].

Definition configPresent (env : Env) : bool :=
  truthy (EXPO_PUBLIC_SUPABASE_URL env) && truthy (EXPO_PUBLIC_SUPABASE_ANON_KEY env).

(** A configuration with both connection parameters. *)
Definition env_ok : Env :=
  {| EXPO_PUBLIC_SUPABASE_URL := Str "https://project.supabase.co";
     EXPO_PUBLIC_SUPABASE_ANON_KEY := Str "anon-key" |}.

(** A signed-in user whose record has no [email_confirmed_at] property. *)
Definition session_marker_absent : Session :=
  {| user := Some {| user_id := "u1"; user_email := "a@mail.utdt.edu";
                     email_confirmed_at := Undefined |} |}.

End Layout.


(** ** Observable effects of the handlers *)

(** Calls into the auth provider and the database client. *)
Inductive ExternalCall : Type :=
| GetSession
| VerifyOTP (email code : string)
| ResendVerificationEmail (email : string)
| GetUser
| DeleteProfile (id : string)
| AdminDeleteUser (id : string)
| SignOut.

(** What an alert button does when pressed ([onPress]). *)
Inductive Callback : Type :=
| RouterReplaceOnPress (path : string)
| ConfirmDeleteAccountOnPress.

Record AlertButton : Type := mkButton {
  text : string;
  style : option string;
  onPress : option Callback
}.

(** The trace of a handler: external calls, alerts, navigation and focus
    requests, in program order. Console output is not recorded. *)
Inductive Event : Type :=
| Call (c : ExternalCall)
| AlertShown (title msg : string) (buttons : list AlertButton)
| RouterReplace (path : string)
| Focus (index : nat).

(** ** Handlers: state, trace and exceptions *)

Module Handler.

Inductive Completion (A : Type) : Type :=
| Normal (a : A)
| Thrown (e : JsError).
Arguments Normal {A} a.
Arguments Thrown {A} e.

(** A handler run to completion from a component state. *)
Definition M (St A : Type) : Type := St -> Completion A * St * list Event.

Definition ret {St A} (a : A) : M St A :=
  fun st => (Normal a, st, []).

Definition bind {St A B} (m : M St A) (k : A -> M St B) : M St B :=
  fun st =>
    match m st with
    | (Normal a, st1, t1) =>
        match k a st1 with
        | (r, st2, t2) => (r, st2, t1 ++ t2)
        end
    | (Thrown e, st1, t1) => (Thrown e, st1, t1)
    end.

Definition throw {St A} (e : JsError) : M St A :=
  fun st => (Thrown e, st, []).

Definition get {St} : M St St :=
  fun st => (Normal st, st, []).

Definition modify {St} (f : St -> St) : M St unit :=
  fun st => (Normal tt, f st, []).

Definition emit {St} (e : Event) : M St unit :=
  fun st => (Normal tt, st, [e]).

(** [await call]: the call is recorded, then its promise settles. *)
Definition await {St A} (c : ExternalCall) (p : Promise A) : M St A :=
  fun st =>
    match p with
    | Resolved a => (Normal a, st, [Call c])
    | Rejected e => (Thrown e, st, [Call c])
    end.

(** [try { body } catch (err) { handler err }] *)
Definition catch {St A} (body : M St A) (handler : JsError -> M St A) : M St A :=
  fun st =>
    match body st with
    | (Normal a, st1, t1) => (Normal a, st1, t1)
    | (Thrown e, st1, t1) =>
        match handler e st1 with
        | (r, st2, t2) => (r, st2, t1 ++ t2)
        end
    end.

(** [body finally { cleanup }]: the cleanup always runs; the completion of
    [body] stands unless the cleanup itself throws. *)
Definition finally {St A} (body : M St A) (cleanup : M St unit) : M St A :=
  fun st =>
    match body st with
    | (r, st1, t1) =>
        match cleanup st1 with
        | (Normal _, st2, t2) => (r, st2, t1 ++ t2)
        | (Thrown e, st2, t2) => (Thrown e, st2, t1 ++ t2)
        end
    end.

Definition final_state {St A} (r : Completion A * St * list Event) : St := snd (fst r).
Definition trace {St A} (r : Completion A * St * list Event) : list Event := snd r.
Definition completion {St A} (r : Completion A * St * list Event) : Completion A := fst (fst r).

Declare Scope handler_scope.
Delimit Scope handler_scope with handler.
Notation "x <- c1 ;; c2" := (bind c1 (fun x => c2))
  (at level 100, c1 at next level, right associativity) : handler_scope.
Notation "c1 ;; c2" := (bind c1 (fun _ => c2))
  (at level 100, right associativity) : handler_scope.

End Handler.
Import Handler.

(** [if (error) throw error;] *)
Definition throw_if {St} (error : option JsError) : M St unit :=
  match error with
  | Some e => throw e
  | None => ret tt
  end.

(** ** The email verification screen: [VerifyEmailScreen] *)

Module Verify.

(** The four [useState] cells of the component. *)
Record VState : Type := mkVState {
  verificationCode : list string;
  error : option string;
  isLoading : bool;
  resendCooldown : Z
}.

Definition initial : VState :=
  {| verificationCode :=
       [EmptyString; EmptyString; EmptyString; EmptyString; EmptyString; EmptyString];
     error := None;
     isLoading := false;
     resendCooldown := 0 |}.

Definition with_verificationCode (c : list string) (st : VState) : VState :=
  {| verificationCode := c; error := error st;
     isLoading := isLoading st; resendCooldown := resendCooldown st |}.

Definition with_error (e : option string) (st : VState) : VState :=
  {| verificationCode := verificationCode st; error := e;
     isLoading := isLoading st; resendCooldown := resendCooldown st |}.

Definition with_isLoading (b : bool) (st : VState) : VState :=
  {| verificationCode := verificationCode st; error := error st;
     isLoading := b; resendCooldown := resendCooldown st |}.

Definition with_resendCooldown (n : Z) (st : VState) : VState :=
  {| verificationCode := verificationCode st; error := error st;
     isLoading := isLoading st; resendCooldown := n |}.

Definition setVerificationCode (c : list string) : M VState unit :=
  modify (with_verificationCode c).
Definition setError (e : option string) : M VState unit :=
  modify (with_error e).
Definition setIsLoading (b : bool) : M VState unit :=
  modify (with_isLoading b).
Definition setResendCooldown (n : Z) : M VState unit :=
  modify (with_resendCooldown n).

(** Results of the two operations taken from [useSupabaseAuth]. *)
Record VerifyData : Type := mkVerifyData {
  session : option Session
}.

Record VerifyResult : Type := mkVerifyResult {
  verify_error : option JsError;
  data : option VerifyData
}.

Record ResendResult : Type := mkResendResult {
  resend_error : option JsError
}.

(** The auth provider as the screen uses it: how each call settles. *)
Record AuthApi : Type := mkAuthApi {
  getSession : Promise (option Session);
  verifyOTP : string -> string -> Promise VerifyResult;
  resendVerificationEmail : string -> Promise ResendResult
}.

(** [arr[index] = v] on a copy of the array. Inside the array the cell is
    replaced. Past its end JavaScript grows the array and leaves holes; a
    hole reads as [undefined], which [join] and the [!cell] test treat like
    the empty string, so holes are written as empty strings. The screen only
    ever passes an index of an existing cell. *)
Definition assign (arr : list string) (index : nat) (v : string) : list string :=
  if (index <? List.length arr)%nat then <[index := v]> arr
  else arr ++ replicate (index - List.length arr) EmptyString ++ [v].

(** [arr.join('')] *)
Definition join (arr : list string) : string := String.concat EmptyString arr.

(** [!arr[index]]: an index past the end reads [undefined]. *)
Definition cell_empty (arr : list string) (index : nat) : bool :=
  match arr !! index with
  | Some s => negb (nonempty s)
  | None => true
  end.

Definition is_digit (c : ascii) : bool :=
  (48 <=? nat_of_ascii c)%nat && (nat_of_ascii c <=? 57)%nat.

(** [text.replace(/[^0-9]/g, '')] *)
Fixpoint keep_digits (s : string) : string :=
  match s with
  | EmptyString => EmptyString
  | String c r => if is_digit c then String c (keep_digits r) else keep_digits r
  end.

Definition incomplete_code_message : string :=
  "Please enter all 6 digits of your verification code".
Definition verify_failed_message : string :=
  "Failed to verify your email. Please try again.".
Definition resend_failed_message : string :=
  "Failed to resend verification code".

Definition verified_title : string := "Email Verified".
Definition verified_signed_in_message : string :=
  "Your email has been successfully verified. You will now be redirected to the app.".
Definition verified_signed_out_message : string :=
  "Your email has been successfully verified. Please sign in to continue.".

Definition continue_button : AlertButton :=
  {| text := "Continue"; style := None;
     onPress := Some (RouterReplaceOnPress "/(tabs)") |}.
Definition sign_in_button : AlertButton :=
  {| text := "Sign In"; style := None;
     onPress := Some (RouterReplaceOnPress "/auth/sign-in") |}.

(** [data?.session] *)
Definition data_session (d : option VerifyData) : option Session :=
  match d with
  | Some d => session d
  | None => None
  end.

(** [err.message || err.originalError] *)
Definition or_else (a b : JsStr) : JsStr := if truthy a then a else b.

Section Screen.

Variable email : string.
Variable api : AuthApi.

Definition handleCodeChange (text : string) (index : nat) : M VState unit :=
  (st <- get ;;
   let newCode := assign (verificationCode st) index text in
   setVerificationCode newCode ;;
   if (String.length text =? 1)%nat && (index <? 5)%nat
   then emit (Focus (index + 1))
   else ret tt)%handler.

(** [inputRefs.current[index]] holds an input exactly for the cells the
    screen renders, one per cell of the code array. *)
Definition input_mounted (st : VState) (index : nat) : bool :=
  (index <? List.length (verificationCode st))%nat.

(** [inputRefs.current[index - 1]?.focus()] does nothing when there is no
    such input. *)
Definition handleKeyPress (key : string) (index : nat) : M VState unit :=
  (st <- get ;;
   if (key =? "Backspace")%string && (0 <? index)%nat
      && cell_empty (verificationCode st) index
   then
     if input_mounted st (index - 1) then emit (Focus (index - 1)) else ret tt
   else ret tt)%handler.

Definition handleVerify : M VState unit :=
  (st <- get ;;
   let code := join (verificationCode st) in
   if negb (String.length code =? 6)%nat then
     setError (Some incomplete_code_message)
   else
     setIsLoading true ;;
     setError None ;;
     finally
       (catch
          (r <- await (VerifyOTP email code) (verifyOTP api email code) ;;
           throw_if (verify_error r) ;;
           match data_session (data r) with
           | Some _ =>
               emit (AlertShown verified_title verified_signed_in_message
                       [continue_button])
           | None =>
               emit (AlertShown verified_title verified_signed_out_message
                       [sign_in_button])
           end)
          (fun err =>
             setError (Some (or_default (or_else (message err) (originalError err))
                               verify_failed_message))))
       (setIsLoading false))%handler.

(** [handleResendCode] as a render creates it: the function closes over the
    [resendCooldown] of that render, here [resendCooldown0], and its guard
    tests that value; the setters write the state of the moment. *)
Definition handleResendCode_from (resendCooldown0 : Z) : M VState unit :=
  (if (0 <? resendCooldown0)%Z then ret tt
   else
     setIsLoading true ;;
     setError None ;;
     finally
       (catch
          (r <- await (ResendVerificationEmail email)
                      (resendVerificationEmail api email) ;;
           throw_if (resend_error r) ;;
           setResendCooldown 60 ;;
           emit (AlertShown "Code Sent"
                   "A new verification code has been sent to your email." []))
          (fun err =>
             setError (Some (or_default (message err) resend_failed_message))))
       (setIsLoading false))%handler.

(** The handler of the current render, which is the one the resend button
    calls: the cooldown it tests is the cooldown of the state. *)
Definition handleResendCode : M VState unit :=
  (st <- get ;; handleResendCode_from (resendCooldown st))%handler.

(** [session?.user?.email_confirmed_at && session.user.email === email] *)
Definition already_verified (s : option Session) : bool :=
  match s with
  | Some s =>
      match user s with
      | Some u => truthy (email_confirmed_at u) && (user_email u =? email)%string
      | None => false
      end
  | None => false
  end.

(** The mount effect, run to completion. Its dependencies are [[email]], so
    it keeps the [resendCooldown] and the [handleResendCode] of the render
    that ran it, whatever the state has become when the session lookup
    returns; [resendCooldown0] is the cooldown of that render. It calls the
    handler itself, not through the resend button. *)
Definition checkVerificationStatus (resendCooldown0 : Z) : M VState unit :=
  catch
    (s <- await GetSession (getSession api) ;;
     if already_verified s then emit (RouterReplace "/(tabs)")
     else if nonempty email && (resendCooldown0 =? 0)%Z
          then handleResendCode_from resendCooldown0
     else ret tt)%handler
    (fun _ => ret tt).

(** The [Pressable]s and [TextInput]s: a disabled control does not call its
    handler. *)
Definition verify_disabled (st : VState) : bool := isLoading st.

Definition resend_disabled (st : VState) : bool :=
  (0 <? resendCooldown st)%Z || isLoading st.

Definition pressVerify : M VState unit :=
  (st <- get ;; if verify_disabled st then ret tt else handleVerify)%handler.

Definition pressResend : M VState unit :=
  (st <- get ;; if resend_disabled st then ret tt else handleResendCode)%handler.

Definition onChangeText (text : string) (index : nat) : M VState unit :=
  handleCodeChange (keep_digits text) index.

End Screen.

(** The cooldown effect: while the cooldown is positive a one-second timeout
    is pending, and when it fires it stores the cooldown minus one. One
    application is one elapsed second. *)
Definition cooldownTimer (st : VState) : VState :=
  if (0 <? resendCooldown st)%Z
  then with_resendCooldown (resendCooldown st - 1) st
  else st.

(** [n] elapsed seconds. *)
Definition elapse (n : nat) (st : VState) : VState := Nat.iter n cooldownTimer st.

(** A cell of the code array: empty or a single decimal digit. *)
Definition is_cell (s : string) : bool :=
  match s with
  | EmptyString => true
  | String c EmptyString => is_digit c
  | String _ (String _ _) => false
  end.

Definition well_formed (code : list string) : bool := forallb is_cell code.

(** How many cells hold a digit. *)
Definition filled (code : list string) : nat :=
  List.length (List.filter nonempty code).

(** The state once a submit or resend has settled: the busy flag is back
    to false and the banner holds [e]; the handlers write nothing else,
    apart from the cooldown after a successful resend. *)
Definition settled (st : VState) (e : option string) : VState :=
  {| verificationCode := verificationCode st; error := e;
     isLoading := false; resendCooldown := resendCooldown st |}.

(** The banner text chosen by the [catch] of [handleVerify]. *)
Definition lastError (err : JsError) : string :=
  or_default (or_else (message err) (originalError err)) verify_failed_message.

(** The message of the error the provider returned, when it has one. *)
Definition returned_message (err : JsError) : option string :=
  match message err with
  | Str m => Some m
  | Undefined | Null => None
  end.

(** The resend call settled without an error. *)
Definition resend_succeeds (api : AuthApi) (email : string) : bool :=
  match resendVerificationEmail api email with
  | Resolved r =>
      match resend_error r with
      | None => true
      | Some _ => false
      end
  | Rejected _ => false
  end.

(** Digit entry of [d] at cell [i], then digit entry of the empty string
    at the same cell. *)
Definition enter_then_clear (d : string) (i : nat) (st : VState) : VState :=
  final_state (handleCodeChange EmptyString i (final_state (handleCodeChange d i st))).

(** An auth provider answering every call with fixed results. *)
Definition api_with (v : Promise VerifyResult) (r : Promise ResendResult) : AuthApi :=
  {| getSession := Resolved None;
     verifyOTP := fun _ _ => v;
     resendVerificationEmail := fun _ => r |}.

Definition resend_ok : Promise ResendResult := Resolved {| resend_error := None |}.
Definition resend_fails : Promise ResendResult :=
  Resolved {| resend_error := Some (Error "Email rate limit exceeded") |}.

Definition verify_signed_in : Promise VerifyResult :=
  Resolved {| verify_error := None;
              data := Some {| session := Some {| user := None |} |} |}.
Definition verify_signed_out : Promise VerifyResult :=
  Resolved {| verify_error := None; data := Some {| session := None |} |}.
Definition verify_fails (e : JsError) : Promise VerifyResult :=
  Resolved {| verify_error := Some e; data := None |}.

Definition code_123 : list string :=
  ["1"; "2"; "3"; EmptyString; EmptyString; EmptyString].
Definition code_123456 : list string := ["1"; "2"; "3"; "4"; "5"; "6"].

End Verify.

(** ** The settings screen: [SettingsScreen] *)

Module Settings.

Record SState : Type := mkSState {
  isSigningOut : bool;
  isDeletingAccount : bool
}.

Definition setIsSigningOut (b : bool) : M SState unit :=
  modify (fun st => {| isSigningOut := b; isDeletingAccount := isDeletingAccount st |}).

Definition setIsDeletingAccount (b : bool) : M SState unit :=
  modify (fun st => {| isSigningOut := isSigningOut st; isDeletingAccount := b |}).

(** How the calls of the screen settle: [getUser] yields the user or null,
    the three others the [error] property of their result. *)
Record Backend : Type := mkBackend {
  getUser : Promise (option User);
  deleteProfile : string -> Promise (option JsError);
  adminDeleteUser : string -> Promise (option JsError);
  signOut : Promise (option JsError)
}.

Definition newline : string := String (ascii_of_nat 10) EmptyString.

Definition delete_failed_message : string :=
  "Failed to delete account. Please try again or contact support.".

(** The text of the alert shown by the [catch] of [confirmDeleteAccount]. *)
Definition delete_alert_message (err : JsError) : string :=
  String.append delete_failed_message
    (match message err with
     | Str m =>
         if nonempty m
         then String.append newline (String.append newline (String.append "Error: " m))
         else EmptyString
     | Undefined | Null => EmptyString
     end).

Section Screen.

Variable api : Backend.

Definition handleSignOut : M SState unit :=
  (setIsSigningOut true ;;
   finally
     (catch
        (error <- await SignOut (signOut api) ;;
         throw_if error ;;
         emit (RouterReplace "/auth/sign-in"))
        (fun err =>
           emit (AlertShown "Error" (or_default (message err) "Failed to sign out") [])))
     (setIsSigningOut false))%handler.

Definition confirmDeleteAccount : M SState unit :=
  (setIsDeletingAccount true ;;
   finally
     (catch
        (user <- await GetUser (getUser api) ;;
         match user with
         | None => throw (Error "User not authenticated")
         | Some user =>
             deleteError <- await (DeleteProfile (user_id user))
                                  (deleteProfile api (user_id user)) ;;
             throw_if deleteError ;;
             authError <- await (AdminDeleteUser (user_id user))
                                (adminDeleteUser api (user_id user)) ;;
             throw_if authError ;;
             _ <- await SignOut (signOut api) ;;
             emit (RouterReplace "/auth/sign-in")
         end)
        (fun err => emit (AlertShown "Error" (delete_alert_message err) [])))
     (setIsDeletingAccount false))%handler.

Definition handleDeleteAccount : M SState unit :=
  emit (AlertShown "Delete Account"
          "Are you sure you want to delete your account? This action CANNOT be undone and all your data will be permanently deleted."
          [ {| text := "Cancel"; style := Some "cancel"; onPress := None |};
            {| text := "Delete Account"; style := Some "destructive";
               onPress := Some ConfirmDeleteAccountOnPress |} ]).

End Screen.

(** The steps of the deletion sequence, as they show in a trace. *)
Definition is_step (e : Event) : bool :=
  match e with
  | Call _ | RouterReplace _ => true
  | AlertShown _ _ _ | Focus _ => false
  end.

Definition is_alert (e : Event) : bool :=
  match e with
  | AlertShown _ _ _ => true
  | _ => false
  end.

(** The screen at rest, with the deletion confirmed. *)
Definition idle : SState := {| isSigningOut := false; isDeletingAccount := false |}.

Definition after_delete (st : SState) : SState :=
  {| isSigningOut := isSigningOut st; isDeletingAccount := false |}.

Definition some_user : User :=
  {| user_id := "u1"; user_email := "a@mail.utdt.edu";
     email_confirmed_at := Str "2024-05-01T10:00:00Z" |}.

(** No current user. *)
Definition backend_no_user : Backend :=
  {| getUser := Resolved None;
     deleteProfile := fun _ => Resolved None;
     adminDeleteUser := fun _ => Resolved None;
     signOut := Resolved None |}.

(** Both deletions succeed and the sign-out reports an error. *)
Definition backend_sign_out_fails : Backend :=
  {| getUser := Resolved (Some some_user);
     deleteProfile := fun _ => Resolved None;
     adminDeleteUser := fun _ => Resolved None;
     signOut := Resolved (Some (Error "Network request failed")) |}.

End Settings.

(** ** The verification screen on the event loop *)

Module Machine.
Import Verify.

(** Calls into the provider among the events of a trace. *)
Definition is_call (e : Event) : bool :=
  match e with
  | Call _ => true
  | _ => false
  end.

Definition calls (t : list Event) : list Event := List.filter is_call t.

(** What an [await] resumes with once its promise has settled: the value,
    or the reason thrown. *)
Definition settle {St A : Type} (p : Promise A) : M St A :=
  match p with
  | Resolved a => ret a
  | Rejected e => throw e
  end.

(** A call the screen is waiting for, with what its continuation closed
    over: the mount effect keeps the [resendCooldown] of the render that ran
    it; the two handlers read no state after their [await]. *)
Inductive Pending : Type :=
| AwaitSession (resendCooldown0 : Z)
| AwaitVerify
| AwaitResend.

(** The calls made under the busy flag. *)
Definition under_busy_flag (p : Pending) : bool :=
  match p with
  | AwaitVerify | AwaitResend => true
  | AwaitSession _ => false
  end.

Section Split.

Variable email : string.

(** [handleVerify] up to its [await]: the result says whether a call was
    made and is now awaited. *)
Definition handleVerify_begin : M VState (option Pending) :=
  (st <- get ;;
   let code := join (verificationCode st) in
   if negb (String.length code =? 6)%nat then
     setError (Some incomplete_code_message) ;;
     ret None
   else
     setIsLoading true ;;
     setError None ;;
     emit (Call (VerifyOTP email code)) ;;
     ret (Some AwaitVerify))%handler.

(** [handleVerify] from its [await] on: the rest of the [try], the [catch]
    and the [finally]. *)
Definition handleVerify_resume (p : Promise VerifyResult) : M VState unit :=
  (finally
     (catch
        (r <- settle p ;;
         throw_if (verify_error r) ;;
         match data_session (data r) with
         | Some _ =>
             emit (AlertShown verified_title verified_signed_in_message
                     [continue_button])
         | None =>
             emit (AlertShown verified_title verified_signed_out_message
                     [sign_in_button])
         end)
        (fun err =>
           setError (Some (or_default (or_else (message err) (originalError err))
                             verify_failed_message))))
     (setIsLoading false))%handler.

(** [handleResendCode] of a render with cooldown [resendCooldown0], up to
    its [await]. *)
Definition handleResendCode_begin (resendCooldown0 : Z) : M VState (option Pending) :=
  (if (0 <? resendCooldown0)%Z then ret None
   else
     setIsLoading true ;;
     setError None ;;
     emit (Call (ResendVerificationEmail email)) ;;
     ret (Some AwaitResend))%handler.

(** [handleResendCode] from its [await] on. *)
Definition handleResendCode_resume (p : Promise ResendResult) : M VState unit :=
  (finally
     (catch
        (r <- settle p ;;
         throw_if (resend_error r) ;;
         setResendCooldown 60 ;;
         emit (AlertShown "Code Sent"
                 "A new verification code has been sent to your email." []))
        (fun err =>
           setError (Some (or_default (message err) resend_failed_message))))
     (setIsLoading false))%handler.

(** The mount effect from its [await] on, in the render whose cooldown was
    [resendCooldown0]: when it calls [handleResendCode], that one runs up
    to its own [await]. *)
Definition checkVerificationStatus_resume (resendCooldown0 : Z)
    (p : Promise (option Session)) : M VState (option Pending) :=
  catch
    (s <- settle p ;;
     if already_verified email s then
       emit (RouterReplace "/(tabs)") ;;
       ret None
     else if nonempty email && (resendCooldown0 =? 0)%Z
          then handleResendCode_begin resendCooldown0
     else ret None)%handler
    (fun _ => ret None).

(** The screen and the calls it is waiting for. *)
Record World : Type := mkWorld {
  ui : VState;
  inflight : list Pending
}.

(** After mounting: the first render, and the session lookup of the mount
    effect on its way. *)
Definition mounted : World * list Event :=
  ({| ui := initial; inflight := [AwaitSession (resendCooldown initial)] |},
   [Call GetSession]).

(** The world after a piece of handler has run, with the call it may have
    started added to those awaited. *)
Definition begun (r : Completion (option Pending) * VState * list Event)
    (waiting : list Pending) : World * list Event :=
  match r with
  | (Normal (Some p), st, t) => ({| ui := st; inflight := waiting ++ [p] |}, t)
  | (_, st, t) => ({| ui := st; inflight := waiting |}, t)
  end.

Definition finished (r : Completion unit * VState * list Event)
    (waiting : list Pending) : World * list Event :=
  match r with
  | (_, st, t) => ({| ui := st; inflight := waiting |}, t)
  end.

(** How a call settles. *)
Inductive Answer : Type :=
| SessionAnswer (p : Promise (option Session))
| VerifyAnswer (p : Promise VerifyResult)
| ResendAnswer (p : Promise ResendResult).

(** What the event loop delivers to the mounted screen, one at a time: user
    input, the one-second timer, or the answer to the [k]-th awaited call. *)
Inductive Input : Type :=
| ChangeText (text : string) (index : nat)
| KeyPress (key : string) (index : nat)
| PressVerify
| PressResend
| Second
| Settled (k : nat) (a : Answer).

(** [editable={!isLoading}] *)
Definition editable (st : VState) : bool := negb (isLoading st).

(** One turn of the event loop; [None] when the input cannot happen. An
    input hands over at most [maxLength = 1] characters, only while it is
    editable, and only the rendered inputs exist; a disabled button does not
    call its handler; an answer needs a call of its kind in flight. *)
Definition fire (i : Input) (w : World) : option (World * list Event) :=
  match i with
  | ChangeText text index =>
      if (String.length text <=? 1)%nat && input_mounted (ui w) index
         && editable (ui w)
      then Some (finished (onChangeText text index (ui w)) (inflight w))
      else None
  | KeyPress key index =>
      if input_mounted (ui w) index && editable (ui w)
      then Some (finished (handleKeyPress key index (ui w)) (inflight w))
      else None
  | PressVerify =>
      if verify_disabled (ui w) then Some (w, [])
      else Some (begun (handleVerify_begin (ui w)) (inflight w))
  | PressResend =>
      if resend_disabled (ui w) then Some (w, [])
      else Some (begun (handleResendCode_begin (resendCooldown (ui w)) (ui w))
                   (inflight w))
  | Second => Some ({| ui := cooldownTimer (ui w); inflight := inflight w |}, [])
  | Settled k a =>
      match inflight w !! k, a with
      | Some (AwaitSession c), SessionAnswer p =>
          Some (begun (checkVerificationStatus_resume c p (ui w))
                  (delete k (inflight w)))
      | Some AwaitVerify, VerifyAnswer p =>
          Some (finished (handleVerify_resume p (ui w)) (delete k (inflight w)))
      | Some AwaitResend, ResendAnswer p =>
          Some (finished (handleResendCode_resume p (ui w)) (delete k (inflight w)))
      | _, _ => None
      end
  end.

(** Several turns in order, with everything they did. *)
Fixpoint run (inputs : list Input) (w : World) : option (World * list Event) :=
  match inputs with
  | [] => Some (w, [])
  | i :: rest =>
      match fire i w with
      | Some (w1, t1) =>
          match run rest w1 with
          | Some (w2, t2) => Some (w2, t1 ++ t2)
          | None => None
          end
      | None => None
      end
  end.

(** The worlds the mounted screen can be in. *)
Inductive reachable : World -> Prop :=
| reachable_mounted : reachable (fst mounted)
| reachable_fire (w w' : World) (i : Input) (t : list Event) :
    reachable w -> fire i w = Some (w', t) -> reachable w'.

End Split.

(** What holds of the screen at every turn. *)
Definition sound (w : World) : Prop :=
  List.length (verificationCode (ui w)) = 6%nat /\
  well_formed (verificationCode (ui w)) = true /\
  (0 <= resendCooldown (ui w) <= 60)%Z /\
  (isLoading (ui w) = true -> existsb under_busy_flag (inflight w) = true).

(** The six digits typed one after the other. *)
Definition type_123456 : list Input :=
  [ChangeText "1" 0; ChangeText "2" 1; ChangeText "3" 2;
   ChangeText "4" 3; ChangeText "5" 4; ChangeText "6" 5].

End Machine.

(** ** Regular expressions, as far as the sign-in screen uses them *)

Module Regex.

(** Patterns without captures or look-around; [Class p] is a character
    class given by its membership test. *)
Inductive re : Type :=
| Void
| Eps
| Class (p : ascii -> bool)
| Cat (r s : re)
| Alt (r s : re)
| Star (r : re).

(** [r+] *)
Definition Plus (r : re) : re := Cat r (Star r).

(** A literal character. *)
Definition Chr (c : ascii) : re := Class (Ascii.eqb c).

Fixpoint nullable (r : re) : bool :=
  match r with
  | Void => false
  | Eps => true
  | Class _ => false
  | Cat r s => nullable r && nullable s
  | Alt r s => nullable r || nullable s
  | Star _ => true
  end.

(** What is left of [r] to match after the character [c]. *)
Fixpoint deriv (c : ascii) (r : re) : re :=
  match r with
  | Void => Void
  | Eps => Void
  | Class p => if p c then Eps else Void
  | Cat r s =>
      if nullable r then Alt (Cat (deriv c r) s) (deriv c s)
      else Cat (deriv c r) s
  | Alt r s => Alt (deriv c r) (deriv c s)
  | Star r => Cat (deriv c r) (Star r)
  end.

(** [/^r$/.test(s)]: the whole string matches. *)
Fixpoint test (r : re) (s : string) : bool :=
  match s with
  | EmptyString => nullable r
  | String c s' => test (deriv c r) s'
  end.

(** The strings a pattern stands for. *)
Inductive lang : re -> string -> Prop :=
| lang_eps : lang Eps EmptyString
| lang_class (p : ascii -> bool) (c : ascii) :
    p c = true -> lang (Class p) (String c EmptyString)
| lang_cat (r s : re) (u v : string) :
    lang r u -> lang s v -> lang (Cat r s) (u ++ v)%string
| lang_alt_l (r s : re) (u : string) : lang r u -> lang (Alt r s) u
| lang_alt_r (r s : re) (u : string) : lang s u -> lang (Alt r s) u
| lang_star_nil (r : re) : lang (Star r) EmptyString
| lang_star_more (r : re) (u v : string) :
    lang r u -> lang (Star r) v -> lang (Star r) (u ++ v)%string.

(** Every character of the string is in the class. *)
Fixpoint all_of (p : ascii -> bool) (s : string) : bool :=
  match s with
  | EmptyString => true
  | String c s' => p c && all_of p s'
  end.

End Regex.

(** ** The sign-in screen: [SignIn] *)

Module SignIn.
Import Regex.

(** A character is a UTF-16 code unit below 256. Among those, [\s] and
    [trim] take the same characters for white space: tab, line feed,
    vertical tab, form feed, carriage return, space and no-break space. *)
Definition is_space (c : ascii) : bool :=
  let n := nat_of_ascii c in
  (n =? 9)%nat || (n =? 10)%nat || (n =? 11)%nat || (n =? 12)%nat || (n =? 13)%nat
  || (n =? 32)%nat || (n =? 160)%nat.

Fixpoint trim_start (s : string) : string :=
  match s with
  | EmptyString => EmptyString
  | String c r => if is_space c then trim_start r else s
  end.

Fixpoint trim_end (s : string) : string :=
  match s with
  | EmptyString => EmptyString
  | String c r =>
      match trim_end r with
      | EmptyString => if is_space c then EmptyString else String c EmptyString
      | r' => String c r'
      end
  end.

(** [s.trim()] *)
Definition trim (s : string) : string := trim_end (trim_start s).

(** [[^\s@]] *)
Definition not_space_at (c : ascii) : bool :=
  negb (is_space c) && negb (Ascii.eqb c "@").

(** [/^[^\s@]+@[^\s@]+\.[^\s@]+$/] *)
Definition emailRegex : re :=
  Cat (Plus (Class not_space_at))
    (Cat (Chr "@")
       (Cat (Plus (Class not_space_at))
          (Cat (Chr ".") (Plus (Class not_space_at))))).

(** [s.includes(needle)] *)
Fixpoint includes (needle s : string) : bool :=
  String.prefix needle s
  || match s with
     | EmptyString => false
     | String _ r => includes needle r
     end.

(** The six [useState] cells of the component. *)
Record SIState : Type := mkSIState {
  email : string;
  password : string;
  error : option string;
  isLoading : bool;
  showPassword : bool;
  needsVerification : bool
}.

Definition initial : SIState :=
  {| email := EmptyString; password := EmptyString; error := None;
     isLoading := false; showPassword := false; needsVerification := false |}.

Definition setEmail (v : string) (st : SIState) : SIState :=
  {| email := v; password := password st; error := error st;
     isLoading := isLoading st; showPassword := showPassword st;
     needsVerification := needsVerification st |}.

Definition setPassword (v : string) (st : SIState) : SIState :=
  {| email := email st; password := v; error := error st;
     isLoading := isLoading st; showPassword := showPassword st;
     needsVerification := needsVerification st |}.

Definition setError (v : option string) (st : SIState) : SIState :=
  {| email := email st; password := password st; error := v;
     isLoading := isLoading st; showPassword := showPassword st;
     needsVerification := needsVerification st |}.

Definition setIsLoading (v : bool) (st : SIState) : SIState :=
  {| email := email st; password := password st; error := error st;
     isLoading := v; showPassword := showPassword st;
     needsVerification := needsVerification st |}.

Definition setShowPassword (v : bool) (st : SIState) : SIState :=
  {| email := email st; password := password st; error := error st;
     isLoading := isLoading st; showPassword := v;
     needsVerification := needsVerification st |}.

Definition setNeedsVerification (v : bool) (st : SIState) : SIState :=
  {| email := email st; password := password st; error := error st;
     isLoading := isLoading st; showPassword := showPassword st;
     needsVerification := v |}.

(** What the handlers of this screen do to the outside. *)
Inductive Effect : Type :=
| SignInCall (email password : string)
| ResendCall (email : string)
| RouterPush (pathname email_param : string).

(** The three operations taken from [useSupabaseAuth]: the two calls by the
    [error] property of their result, the domain check by its truth value. *)
Record AuthHook : Type := mkAuthHook {
  signIn : string -> string -> Promise (option JsError);
  resendVerificationEmail : string -> Promise (option JsError);
  validateEmailDomain : string -> bool
}.

Section Screen.

Variable hook : AuthHook.

(** The error thrown by reading [includes] of a message that is not a
    string; its text depends on the engine. *)
Variable includes_type_error : JsError.

Definition validateEmail (email : string) : option string :=
  if negb (nonempty (trim email)) then Some "Email is required"
  else if negb (test emailRegex email) then Some "Invalid email format"
  else if negb (validateEmailDomain hook email)
       then Some "Only @mail.utdt.edu email addresses are allowed"
  else None.

(** The body of the [try] of [handleSignIn], up to where it throws or
    ends: the state it leaves and the error it throws, if any. *)
Definition sign_in_attempt (st : SIState) : SIState * option JsError :=
  match signIn hook (email st) (password st) with
  | Rejected e => (st, Some e)
  | Resolved None => (st, None)
  | Resolved (Some signInError) =>
      match message signInError with
      | Str m =>
          ((if includes "Email not confirmed" m
            then setNeedsVerification true st else st),
           Some signInError)
      | Undefined | Null => (st, Some includes_type_error)
      end
  end.

(** Handlers return the state they leave and what they did outside. *)
Definition handleSignIn (st : SIState) : SIState * list Effect :=
  let st := setError None st in
  let st := setNeedsVerification false st in
  match validateEmail (email st) with
  | Some emailError => (setError (Some emailError) st, [])
  | None =>
      if negb (nonempty (password st))
      then (setError (Some "Password is required") st, [])
      else
        let st := setIsLoading true st in
        let '(st, thrown) := sign_in_attempt st in
        let st :=
          match thrown with
          | Some err => setError (Some (or_default (message err) "Failed to sign in")) st
          | None => st
          end in
        (setIsLoading false st, [SignInCall (email st) (password st)])
  end.

Definition handleResendVerification (st : SIState) : SIState * list Effect :=
  if negb (nonempty (email st))
  then (setError (Some "Please enter your email address") st, [])
  else
    let st := setIsLoading true st in
    let st := setError None st in
    match resendVerificationEmail hook (email st) with
    | Resolved None =>
        (setIsLoading false st,
         [ResendCall (email st); RouterPush "/auth/verify" (email st)])
    | Resolved (Some err) | Rejected err =>
        (setIsLoading false
           (setError (Some (or_default (message err)
                              "Failed to resend verification email")) st),
         [ResendCall (email st)])
    end.

(** The change handlers of the two inputs. *)
Definition onChangeEmail (text : string) (st : SIState) : SIState :=
  setNeedsVerification false (setError None (setEmail text st)).

Definition onChangePassword (text : string) (st : SIState) : SIState :=
  setError None (setPassword text st).

End Screen.

(** A part of an address between the separators: not empty, no white space
    and no at sign. *)
Definition is_part (s : string) : bool := nonempty s && all_of not_space_at s.

End SignIn.

(** * Properties *)

(** ** Route guard *)

Module LayoutProps.
Import Layout.

Lemma RootLayout_loading session env :
  RootLayout session true env = LoadingView.
Proof. reflexivity. Qed.

Lemma RootLayout_setup_required session env :
  configPresent env = false ->
  RootLayout session false env = SetupRequiredView.
Proof.
  unfold configPresent, RootLayout. intros H.
  apply andb_false_iff in H as [-> | ->]; simpl; [reflexivity |].
  now rewrite orb_true_r.
Qed.

Lemma RootLayout_stack session env :
  configPresent env = true ->
  RootLayout session false env = StackView (tabs_redirect session) (auth_redirect session).
Proof.
  unfold configPresent, RootLayout. intros H.
  apply andb_true_iff in H as [-> ->]. reflexivity.
Qed.

(** Which screens the guard activates, for every input. The only inputs
    with no active screen are sessions whose user has a falsy confirmation
    marker other than [null]: an absent one, or the empty string. *)
Lemma active_screens_RootLayout session loading env :
  active_screens (RootLayout session loading env) =
  if loading then [Loading]
  else if negb (configPresent env) then [SetupRequired]
  else match session with
       | None => [AuthArea]
       | Some s =>
           match user s with
           | None => [MainArea]
           | Some u =>
               match email_confirmed_at u with
               | Null => [AuthArea]
               | Undefined => []
               | Str m => if nonempty m then [MainArea] else []
               end
           end
       end.
Proof.
  destruct loading; [reflexivity |].
  destruct (configPresent env) eqn:Hc; cbn [negb].
  - rewrite (RootLayout_stack _ _ Hc).
    destruct session as [[[[i e c] |]] |]; try reflexivity.
    destruct c as [| | m]; try reflexivity.
    destruct m; reflexivity.
  - now rewrite (RootLayout_setup_required _ _ Hc).
Qed.

(** The guard never activates two screens. *)
Lemma at_most_one_screen session loading env :
  (List.length (active_screens (RootLayout session loading env)) <= 1)%nat.
Proof.
  rewrite active_screens_RootLayout.
  destruct loading; [simpl; lia |].
  destruct (negb (configPresent env)); [simpl; lia |].
  destruct session as [[[[i e c] |]] |]; simpl; try lia.
  destruct c as [| | [| a m]]; simpl; lia.
Qed.

(** No session: the auth area. *)
Lemma no_session_routes_to_auth env :
  configPresent env = true ->
  active_screens (RootLayout None false env) = [AuthArea].
Proof. intros H. rewrite active_screens_RootLayout, H. reflexivity. Qed.

(** A [null] confirmation marker: the auth area. *)
Lemma null_marker_routes_to_auth u env :
  configPresent env = true ->
  email_confirmed_at u = Null ->
  active_screens (RootLayout (Some {| user := Some u |}) false env) = [AuthArea].
Proof. intros H Hn. rewrite active_screens_RootLayout, H. simpl. now rewrite Hn. Qed.

(** A confirmation timestamp: the main area. *)
Lemma confirmed_routes_to_main u env :
  configPresent env = true ->
  truthy (email_confirmed_at u) = true ->
  active_screens (RootLayout (Some {| user := Some u |}) false env) = [MainArea].
Proof.
  intros H Ht. rewrite active_screens_RootLayout, H. simpl.
  destruct (email_confirmed_at u) as [| | m]; try discriminate.
  simpl in Ht. now rewrite Ht.
Qed.

(** Whenever the user record has no confirmation marker, both guarded
    screens are redirected away. *)
Lemma absent_marker_redirects_both u env :
  configPresent env = true ->
  email_confirmed_at u = Undefined ->
  RootLayout (Some {| user := Some u |}) false env = StackView true true.
Proof.
  intros H Hu. rewrite (RootLayout_stack _ _ H).
  unfold tabs_redirect, auth_redirect, user_email_confirmed_at. simpl.
  now rewrite Hu.
Qed.

(** C1. A session whose user carries no email-confirmation field, with
    loading finished and configuration present, is not routed to the auth
    area: the guard redirects the tabs screen (as for an unconfirmed user)
    but redirects the auth screen as well, because [undefined !== null]
    holds. The auth area is inactive at this input. *)
Theorem absent_marker_not_routed_to_auth :
  configPresent env_ok = true /\
  email_confirmed_at (mkUser "u1" "a@mail.utdt.edu" Undefined) = Undefined /\
  RootLayout (Some session_marker_absent) false env_ok = StackView true true /\
  active (RootLayout (Some session_marker_absent) false env_ok) AuthArea = false /\
  active_screens (RootLayout (Some session_marker_absent) false env_ok) <> [AuthArea].
Proof. repeat split; try reflexivity. discriminate. Qed.

(** C2. At the same input none of the four screen states is active, so
    "exactly one" fails there; at every other kind of input listed by the
    claim exactly one is active ([active_screens_RootLayout]). *)
Theorem absent_marker_no_active_screen :
  active_screens (RootLayout (Some session_marker_absent) false env_ok) = [] /\
  (forall s, active (RootLayout (Some session_marker_absent) false env_ok) s = false).
Proof. split; [reflexivity | intros []; reflexivity]. Qed.

End LayoutProps.

(** ** Email verification *)

Module VerifyProps.
Import Verify Machine.

Ltac run_handler :=
  unfold handleVerify, handleResendCode, handleResendCode_from, handleCodeChange,
    handleKeyPress,
    pressVerify, pressResend, onChangeText,
    setVerificationCode, setError, setIsLoading, setResendCooldown,
    throw_if, bind, ret, get, modify, emit, await, catch, finally, throw;
  cbn.

(** *** Strings and the code array *)

Lemma length_append (a b : string) :
  String.length (a ++ b)%string = (String.length a + String.length b)%nat.
Proof. induction a as [| c a IH]; simpl; [reflexivity | now rewrite IH]. Qed.

Lemma append_empty_r (a : string) : (a ++ EmptyString)%string = a.
Proof. induction a as [| c a IH]; simpl; [reflexivity | now rewrite IH]. Qed.

Lemma join_cons (x : string) (xs : list string) :
  join (x :: xs) = (x ++ join xs)%string.
Proof.
  unfold join. destruct xs as [| y ys]; simpl.
  - now rewrite append_empty_r.
  - reflexivity.
Qed.

Lemma is_cell_length (s : string) :
  is_cell s = true -> String.length s = if nonempty s then 1%nat else 0%nat.
Proof. destruct s as [| c [| d r]]; simpl; intros H; [reflexivity .. | discriminate]. Qed.

(** With cells of at most one character, the joined code is as long as
    the number of filled cells. *)
Lemma length_join (code : list string) :
  well_formed code = true -> String.length (join code) = filled code.
Proof.
  unfold well_formed, filled.
  induction code as [| x xs IH]; intros Hwf; [reflexivity |].
  simpl in Hwf. apply andb_true_iff in Hwf as [Hx Hxs].
  rewrite join_cons, length_append, (is_cell_length _ Hx), (IH Hxs).
  simpl. destruct (nonempty x); reflexivity.
Qed.

Lemma is_cell_keep_digits (text : string) :
  (String.length text <= 1)%nat -> is_cell (keep_digits text) = true.
Proof.
  destruct text as [| c [| d r]]; simpl; intros H; [reflexivity | | lia].
  destruct (is_digit c) eqn:Hc; simpl; [exact Hc | reflexivity].
Qed.

Lemma well_formed_insert (code : list string) (i : nat) (v : string) :
  is_cell v = true -> well_formed code = true -> well_formed (<[i := v]> code) = true.
Proof.
  unfold well_formed. intros Hv. revert i.
  induction code as [| x xs IH]; intros i Hwf; [reflexivity |].
  simpl in Hwf. apply andb_true_iff in Hwf as [Hx Hxs].
  destruct i as [| i]; simpl.
  - now rewrite Hv, Hxs.
  - now rewrite Hx, IH.
Qed.

Lemma assign_in_range (arr : list string) (i : nat) (v : string) :
  (i < List.length arr)%nat -> assign arr i v = <[i := v]> arr.
Proof.
  intros H. unfold assign.
  destruct (Nat.ltb_spec i (List.length arr)); [reflexivity | lia].
Qed.

(** The text input hands over at most one character ([maxLength]); the
    change handler then keeps every cell empty or a single digit. *)
Lemma onChangeText_well_formed (text : string) (i : nat) (st : VState) :
  (String.length text <= 1)%nat ->
  (i < List.length (verificationCode st))%nat ->
  well_formed (verificationCode st) = true ->
  well_formed (verificationCode (final_state (onChangeText text i st))) = true.
Proof.
  intros Ht Hi Hwf. run_handler.
  destruct (_ && _); cbn; rewrite (assign_in_range _ _ _ Hi);
    apply well_formed_insert; auto using is_cell_keep_digits.
Qed.

Lemma initial_well_formed : well_formed (verificationCode initial) = true.
Proof. reflexivity. Qed.

(** *** Submit *)

Section Submit.

Variable email : string.
Variable api : AuthApi.

(** A code that does not join to six characters is rejected before
    anything else happens. *)
Lemma handleVerify_rejects (st : VState) :
  String.length (join (verificationCode st)) <> 6%nat ->
  handleVerify email api st =
  (Normal tt, with_error (Some incomplete_code_message) st, []).
Proof.
  intros H. run_handler.
  destruct (Nat.eqb_spec (String.length (join (verificationCode st))) 6);
    [contradiction | reflexivity].
Qed.

(** A six-character code is sent to the provider once, and the way the
    call settles decides the rest. *)
Lemma handleVerify_submits (st : VState) :
  String.length (join (verificationCode st)) = 6%nat ->
  handleVerify email api st =
  match verifyOTP api email (join (verificationCode st)) with
  | Resolved r =>
      match verify_error r with
      | Some e =>
          (Normal tt, settled st (Some (lastError e)),
           [Call (VerifyOTP email (join (verificationCode st)))])
      | None =>
          (Normal tt, settled st None,
           [Call (VerifyOTP email (join (verificationCode st)));
            match data_session (data r) with
            | Some _ =>
                AlertShown verified_title verified_signed_in_message [continue_button]
            | None =>
                AlertShown verified_title verified_signed_out_message [sign_in_button]
            end])
      end
  | Rejected e =>
      (Normal tt, settled st (Some (lastError e)),
       [Call (VerifyOTP email (join (verificationCode st)))])
  end.
Proof.
  intros H. run_handler. rewrite H. cbn.
  destruct (verifyOTP api email (join (verificationCode st))) as [[[e |] d] | e]; cbn;
    try reflexivity.
  destruct (data_session d); reflexivity.
Qed.

End Submit.

(** C3. A well-formed code array with fewer than six filled cells: the
    submit handler stores the incomplete-code message, makes no call at all
    (so none to the verify operation), and leaves the digit cells, the busy
    flag and the cooldown as they were. *)
Theorem handleVerify_incomplete_code (email : string) (api : AuthApi) (st : VState) :
  well_formed (verificationCode st) = true ->
  (filled (verificationCode st) < 6)%nat ->
  handleVerify email api st =
    (Normal tt, with_error (Some incomplete_code_message) st, []) /\
  verificationCode (final_state (handleVerify email api st)) = verificationCode st /\
  isLoading (final_state (handleVerify email api st)) = isLoading st /\
  error (final_state (handleVerify email api st)) = Some incomplete_code_message /\
  trace (handleVerify email api st) = [].
Proof.
  intros Hwf Hlt.
  assert (E : handleVerify email api st =
              (Normal tt, with_error (Some incomplete_code_message) st, [])).
  { apply handleVerify_rejects. rewrite (length_join _ Hwf). lia. }
  rewrite E. repeat split.
Qed.

Lemma handleVerify_incomplete_code_witness :
  well_formed code_123 = true /\
  (filled code_123 < 6)%nat /\
  trace (handleVerify "a@mail.utdt.edu" (api_with verify_signed_in resend_ok)
           (with_verificationCode code_123 initial)) = [].
Proof.
  split; [reflexivity |]. split; [vm_compute; lia |].
  apply (handleVerify_incomplete_code "a@mail.utdt.edu"
           (api_with verify_signed_in resend_ok)
           (with_verificationCode code_123 initial)).
  - reflexivity.
  - vm_compute; lia.
Defined.

(** C4, as the code has it. After a submit of a six-character code that the
    provider answers: with a session, the busy flag is cleared, no error is
    stored and the "Email Verified" alert is shown whose one button replaces
    the route by the main area; without a session, the same with a button
    that replaces the route by sign-in; with an error, the busy flag is
    cleared and the banner holds the error's message when that is a
    non-empty string, else its [originalError] when that is one, else the
    generic failure text. *)
Theorem handleVerify_outcomes (email : string) (api : AuthApi) (st : VState)
    (r : VerifyResult) :
  String.length (join (verificationCode st)) = 6%nat ->
  verifyOTP api email (join (verificationCode st)) = Resolved r ->
  match verify_error r, data_session (data r) with
  | None, Some _ =>
      handleVerify email api st =
      (Normal tt, settled st None,
       [Call (VerifyOTP email (join (verificationCode st)));
        AlertShown verified_title verified_signed_in_message [continue_button]])
      /\ onPress continue_button = Some (RouterReplaceOnPress "/(tabs)")
  | None, None =>
      handleVerify email api st =
      (Normal tt, settled st None,
       [Call (VerifyOTP email (join (verificationCode st)));
        AlertShown verified_title verified_signed_out_message [sign_in_button]])
      /\ onPress sign_in_button = Some (RouterReplaceOnPress "/auth/sign-in")
  | Some e, _ =>
      handleVerify email api st =
      (Normal tt, settled st (Some (lastError e)),
       [Call (VerifyOTP email (join (verificationCode st)))])
      /\ lastError e =
         match message e, originalError e with
         | Str (String c m), _ => String c m
         | _, Str (String c o) => String c o
         | _, _ => verify_failed_message
         end
  end.
Proof.
  intros Hlen Hr. rewrite (handleVerify_submits _ _ _ Hlen), Hr.
  destruct (verify_error r) as [e |].
  - split; [reflexivity |].
    unfold lastError, or_else, or_default.
    destruct (message e) as [| | [| c m]], (originalError e) as [| | [| d o]];
      reflexivity.
  - destruct (data_session (data r)); split; reflexivity.
Qed.

Lemma handleVerify_outcomes_witness :
  trace (handleVerify "a@mail.utdt.edu" (api_with verify_signed_in resend_ok)
           (with_verificationCode code_123456 initial)) =
    [Call (VerifyOTP "a@mail.utdt.edu" "123456");
     AlertShown verified_title verified_signed_in_message [continue_button]] /\
  trace (handleVerify "a@mail.utdt.edu" (api_with verify_signed_out resend_ok)
           (with_verificationCode code_123456 initial)) =
    [Call (VerifyOTP "a@mail.utdt.edu" "123456");
     AlertShown verified_title verified_signed_out_message [sign_in_button]] /\
  error (final_state
           (handleVerify "a@mail.utdt.edu"
              (api_with (verify_fails (Error "Token has expired or is invalid")) resend_ok)
              (with_verificationCode code_123456 initial))) =
    Some "Token has expired or is invalid".
Proof.
  split; [| split].
  - pose proof (handleVerify_outcomes "a@mail.utdt.edu"
                  (api_with verify_signed_in resend_ok)
                  (with_verificationCode code_123456 initial) _
                  eq_refl eq_refl) as [E _].
    now rewrite E.
  - pose proof (handleVerify_outcomes "a@mail.utdt.edu"
                  (api_with verify_signed_out resend_ok)
                  (with_verificationCode code_123456 initial) _
                  eq_refl eq_refl) as [E _].
    now rewrite E.
  - pose proof (handleVerify_outcomes "a@mail.utdt.edu"
                  (api_with (verify_fails (Error "Token has expired or is invalid")) resend_ok)
                  (with_verificationCode code_123456 initial) _
                  eq_refl eq_refl) as [E _].
    now rewrite E.
Defined.

(** C4 as stated fails for an error whose message is not a non-empty
    string: with an empty message the banner holds the generic text, and
    with no message but an [originalError] it holds that, not the error's
    message. *)
Lemma handleVerify_error_message_counterexample :
  (let e := {| message := Str EmptyString; originalError := Undefined |} in
   let api := api_with (verify_fails e) resend_ok in
   let st := with_verificationCode code_123456 initial in
   verifyOTP api "a@mail.utdt.edu" (join (verificationCode st)) = verify_fails e /\
   error (final_state (handleVerify "a@mail.utdt.edu" api st))
     = Some verify_failed_message /\
   error (final_state (handleVerify "a@mail.utdt.edu" api st))
     <> returned_message e) /\
  (let e := {| message := Undefined; originalError := Str "otp_expired" |} in
   let api := api_with (verify_fails e) resend_ok in
   let st := with_verificationCode code_123456 initial in
   error (final_state (handleVerify "a@mail.utdt.edu" api st)) = Some "otp_expired" /\
   error (final_state (handleVerify "a@mail.utdt.edu" api st))
     <> returned_message e).
Proof. repeat split; discriminate. Qed.

(** C10. The submit handler never writes the digit cells: rejected, failed
    or successful, the code array after it is the array before it. *)
Theorem handleVerify_preserves_code (email : string) (api : AuthApi) (st : VState) :
  verificationCode (final_state (handleVerify email api st)) = verificationCode st.
Proof.
  destruct (Nat.eq_dec (String.length (join (verificationCode st))) 6) as [H | H].
  - rewrite (handleVerify_submits _ _ _ H).
    destruct (verifyOTP api email (join (verificationCode st))) as [r | e];
      [destruct (verify_error r) |]; reflexivity.
  - now rewrite (handleVerify_rejects _ _ _ H).
Qed.

(** *** Resend and the cooldown *)

Section Resend.

Variable email : string.
Variable api : AuthApi.

(** The resend handler on any state: its only guard is the cooldown. *)
Lemma handleResendCode_runs (st : VState) :
  handleResendCode email api st =
  if (0 <? resendCooldown st)%Z then (Normal tt, st, [])
  else
    match resendVerificationEmail api email with
    | Resolved r =>
        match resend_error r with
        | None =>
            (Normal tt, with_resendCooldown 60 (settled st None),
             [Call (ResendVerificationEmail email);
              AlertShown "Code Sent"
                "A new verification code has been sent to your email." []])
        | Some e =>
            (Normal tt,
             settled st (Some (or_default (message e) resend_failed_message)),
             [Call (ResendVerificationEmail email)])
        end
    | Rejected e =>
        (Normal tt,
         settled st (Some (or_default (message e) resend_failed_message)),
         [Call (ResendVerificationEmail email)])
    end.
Proof.
  run_handler. destruct (0 <? resendCooldown st)%Z; [reflexivity |]. cbn.
  destruct (resendVerificationEmail api email) as [[[e |]] | e]; reflexivity.
Qed.

Lemma pressResend_disabled (st : VState) :
  resend_disabled st = true -> pressResend email api st = (Normal tt, st, []).
Proof. intros H. unfold pressResend, bind, get, ret. now rewrite H. Qed.

Lemma pressResend_enabled (st : VState) :
  resend_disabled st = false ->
  pressResend email api st = handleResendCode email api st.
Proof.
  intros H. unfold pressResend, bind, get. rewrite H.
  destruct (handleResendCode email api st) as [[c st'] t]. reflexivity.
Qed.

Lemma handleResendCode_cooling (st : VState) :
  (0 < resendCooldown st)%Z -> handleResendCode email api st = (Normal tt, st, []).
Proof.
  intros H. rewrite handleResendCode_runs.
  destruct (Z.ltb_spec 0 (resendCooldown st)); [reflexivity | lia].
Qed.

Lemma resend_disabled_cooling (st : VState) :
  (0 < resendCooldown st)%Z -> resend_disabled st = true.
Proof.
  intros H. unfold resend_disabled.
  destruct (Z.ltb_spec 0 (resendCooldown st)); [reflexivity | lia].
Qed.

End Resend.

(** One elapsed second touches nothing but the cooldown. *)
Lemma cooldownTimer_frame (st : VState) :
  verificationCode (cooldownTimer st) = verificationCode st /\
  error (cooldownTimer st) = error st /\
  isLoading (cooldownTimer st) = isLoading st.
Proof. unfold cooldownTimer. destruct (0 <? resendCooldown st)%Z; repeat split. Qed.

Lemma elapse_isLoading (n : nat) (st : VState) :
  isLoading (elapse n st) = isLoading st.
Proof.
  unfold elapse. induction n as [| n IH]; [reflexivity |].
  rewrite Nat.iter_succ. destruct (cooldownTimer_frame (Nat.iter n cooldownTimer st))
    as (_ & _ & ->). exact IH.
Qed.

(** The countdown: one less per elapsed second, stopping at zero. *)
Lemma elapse_cooldown (n : nat) (st : VState) :
  (0 <= resendCooldown st)%Z ->
  resendCooldown (elapse n st) = Z.max 0 (resendCooldown st - Z.of_nat n).
Proof.
  intros H0. unfold elapse. induction n as [| n IH]; [simpl; lia |].
  rewrite Nat.iter_succ. unfold cooldownTimer at 1.
  destruct (Z.ltb_spec 0 (resendCooldown (Nat.iter n cooldownTimer st))) as [Hp | Hp];
    cbn; rewrite IH in *; lia.
Qed.

(** The cooldown never goes negative. *)
Lemma cooldown_nonneg_resend email api (st : VState) :
  (0 <= resendCooldown st)%Z ->
  (0 <= resendCooldown (final_state (handleResendCode email api st)))%Z.
Proof.
  intros H. rewrite handleResendCode_runs.
  destruct (0 <? resendCooldown st)%Z; [exact H |].
  destruct (resendVerificationEmail api email) as [[[e |]] | e]; cbn; lia.
Qed.

Lemma cooldown_nonneg_timer (st : VState) :
  (0 <= resendCooldown st)%Z -> (0 <= resendCooldown (cooldownTimer st))%Z.
Proof.
  unfold cooldownTimer.
  destruct (Z.ltb_spec 0 (resendCooldown st)); cbn; lia.
Qed.

(** C5, as the code has it. Pressing the resend button does nothing, on the
    event loop as in a run to completion, whenever the cooldown is positive
    or the busy flag is set: the button is disabled then. The handler of the
    current render, the one the button would call, also returns at once
    whenever the cooldown is positive. The handler has no guard on the busy
    flag: when the session lookup of the mount effect returns while a submit
    is in flight and no cooldown is running, the resend it starts goes
    out. *)
Theorem resend_noop (email : string) (api : AuthApi) (st : VState)
    (waiting : list Pending) :
  ((0 < resendCooldown st)%Z ->
   handleResendCode email api st = (Normal tt, st, [])) /\
  ((0 < resendCooldown st)%Z \/ isLoading st = true ->
   pressResend email api st = (Normal tt, st, []) /\
   fire email PressResend {| ui := st; inflight := waiting |}
   = Some ({| ui := st; inflight := waiting |}, [])) /\
  (forall (k : nat) (s : option Session),
     waiting !! k = Some (AwaitSession (resendCooldown initial)) ->
     isLoading st = true -> resendCooldown st = 0%Z ->
     already_verified email s = false -> nonempty email = true ->
     exists w',
       fire email (Settled k (SessionAnswer (Resolved s)))
         {| ui := st; inflight := waiting |}
       = Some (w', [Call (ResendVerificationEmail email)])).
Proof.
  split; [| split].
  - apply handleResendCode_cooling.
  - intros H.
    assert (Hd : resend_disabled st = true).
    { destruct H as [H | H].
      - now apply resend_disabled_cooling.
      - unfold resend_disabled. rewrite H. apply orb_true_r. }
    split; [now apply pressResend_disabled |].
    cbn [fire ui]. now rewrite Hd.
  - intros k s Hk _ _ Hv He. unfold fire. cbn [ui inflight]. rewrite Hk.
    unfold checkVerificationStatus_resume, handleResendCode_begin, settle, catch,
      bind, ret, emit, throw, setIsLoading, setError, modify.
    rewrite Hv, He. eexists. reflexivity.
Qed.

Lemma resend_noop_witness :
  handleResendCode "a@mail.utdt.edu" (api_with verify_signed_in resend_ok)
    (with_resendCooldown 30 initial)
  = (Normal tt, with_resendCooldown 30 initial, []) /\
  fire "a@mail.utdt.edu" PressResend
    {| ui := with_isLoading true initial; inflight := [AwaitVerify] |}
  = Some ({| ui := with_isLoading true initial; inflight := [AwaitVerify] |}, []).
Proof.
  split.
  - apply (proj1 (resend_noop "a@mail.utdt.edu" (api_with verify_signed_in resend_ok)
                    (with_resendCooldown 30 initial) [])).
    simpl. lia.
  - apply (proj1 (proj2 (resend_noop "a@mail.utdt.edu"
                           (api_with verify_signed_in resend_ok)
                           (with_isLoading true initial) [AwaitVerify]))).
    right. reflexivity.
Defined.

(** C5 as stated fails for the resend that the mount effect starts. Its
    guard is the cooldown of the render that mounted the screen, which is 0,
    and it never looks at the busy flag. First run: the user presses resend
    while the session lookup is on its way and the resend succeeds, so the
    cooldown is 60; when the lookup then returns without a confirmed session,
    a second code is sent. Second run: the user types six digits and presses
    verify; with that submit in flight the lookup returns, and a code is
    sent. *)
Lemma mount_resend_counterexample :
  match run "a@mail.utdt.edu" [PressResend; Settled 1 (ResendAnswer resend_ok)]
          (fst mounted) with
  | Some (w, _) =>
      resendCooldown (ui w) = 60%Z /\
      inflight w = [AwaitSession 0] /\
      match fire "a@mail.utdt.edu" (Settled 0 (SessionAnswer (Resolved None))) w with
      | Some (w', t) =>
          t = [Call (ResendVerificationEmail "a@mail.utdt.edu")] /\ ui w' <> ui w
      | None => False
      end
  | None => False
  end /\
  match run "a@mail.utdt.edu" (type_123456 ++ [PressVerify]) (fst mounted) with
  | Some (w, t0) =>
      calls t0 = [Call (VerifyOTP "a@mail.utdt.edu" "123456")] /\
      isLoading (ui w) = true /\
      inflight w = [AwaitSession 0; AwaitVerify] /\
      match fire "a@mail.utdt.edu" (Settled 0 (SessionAnswer (Resolved None))) w with
      | Some (_, t) => t = [Call (ResendVerificationEmail "a@mail.utdt.edu")]
      | None => False
      end
  | None => False
  end.
Proof.
  split.
  - cbn. repeat split. discriminate.
  - cbn. repeat split.
Qed.

(** C6. A resend started with no cooldown: if it succeeds the cooldown is
    60, after [n <= 60] elapsed seconds it is [60 - n], the resend button
    and handler do nothing during the first 60 seconds, and after 60 seconds
    the button is enabled and a press calls the provider again; if it fails
    the cooldown is still 0. *)
Theorem resend_cooldown (email : string) (api : AuthApi) (st : VState) :
  resendCooldown st = 0%Z ->
  if resend_succeeds api email then
    resendCooldown (final_state (handleResendCode email api st)) = 60%Z /\
    (forall n : nat, (n <= 60)%nat ->
       resendCooldown (elapse n (final_state (handleResendCode email api st)))
       = (60 - Z.of_nat n)%Z) /\
    (forall n : nat, (n < 60)%nat ->
       pressResend email api (elapse n (final_state (handleResendCode email api st)))
       = (Normal tt, elapse n (final_state (handleResendCode email api st)), []) /\
       handleResendCode email api (elapse n (final_state (handleResendCode email api st)))
       = (Normal tt, elapse n (final_state (handleResendCode email api st)), [])) /\
    resend_disabled (elapse 60 (final_state (handleResendCode email api st))) = false /\
    (exists t,
       trace (pressResend email api
                (elapse 60 (final_state (handleResendCode email api st))))
       = Call (ResendVerificationEmail email) :: t)
  else
    resendCooldown (final_state (handleResendCode email api st)) = 0%Z.
Proof.
  intros H0. unfold resend_succeeds.
  assert (Hrun := handleResendCode_runs email api st).
  rewrite H0 in Hrun. change (0 <? 0)%Z with false in Hrun. cbv iota in Hrun.
  destruct (resendVerificationEmail api email) as [[[e |]] | e] eqn:Hr;
    cbv iota beta delta [resend_error] in Hrun |- *; rewrite Hrun;
    try exact H0.
  set (st' := with_resendCooldown 60 (settled st None)).
  change (final_state (Normal tt, st', _)) with st'.
  assert (Hc : resendCooldown st' = 60%Z) by reflexivity.
  assert (Hl : isLoading st' = false) by reflexivity.
  assert (Hn : forall n : nat, (n <= 60)%nat ->
                 resendCooldown (elapse n st') = (60 - Z.of_nat n)%Z).
  { intros n Hle. rewrite elapse_cooldown; rewrite Hc; lia. }
  assert (Hready : resend_disabled (elapse 60 st') = false).
  { unfold resend_disabled. rewrite Hn, elapse_isLoading, Hl by lia. reflexivity. }
  split; [exact Hc |]. split; [exact Hn |]. split; [| split].
  - intros n Hlt.
    assert (Hpos : (0 < resendCooldown (elapse n st'))%Z) by (rewrite Hn; lia).
    split.
    + apply pressResend_disabled. now apply resend_disabled_cooling.
    + now apply handleResendCode_cooling.
  - exact Hready.
  - rewrite (pressResend_enabled _ _ _ Hready), handleResendCode_runs, Hn, Hr by lia.
    eexists. reflexivity.
Qed.

Lemma resend_cooldown_witness :
  resendCooldown
    (elapse 25 (final_state
                  (handleResendCode "a@mail.utdt.edu"
                     (api_with verify_signed_in resend_ok) initial))) = 35%Z /\
  resendCooldown
    (final_state (handleResendCode "a@mail.utdt.edu"
                    (api_with verify_signed_in resend_fails) initial)) = 0%Z.
Proof.
  split.
  - pose proof (resend_cooldown "a@mail.utdt.edu"
                  (api_with verify_signed_in resend_ok) initial eq_refl) as H.
    cbn in H. destruct H as (_ & H & _). apply (H 25%nat). lia.
  - exact (resend_cooldown "a@mail.utdt.edu"
             (api_with verify_signed_in resend_fails) initial eq_refl).
Defined.

(** *** Digit entry *)

Lemma handleCodeChange_code (text : string) (i : nat) (st : VState) :
  verificationCode (final_state (handleCodeChange text i st))
  = assign (verificationCode st) i text.
Proof. run_handler. destruct (_ && _); reflexivity. Qed.

(** Entering then clearing at an existing cell leaves the array with that
    cell emptied, whatever it held before. *)
Lemma enter_then_clear_code (d : string) (i : nat) (st : VState) :
  (i < List.length (verificationCode st))%nat ->
  verificationCode (enter_then_clear d i st)
  = <[i := EmptyString]> (verificationCode st).
Proof.
  intros Hi. unfold enter_then_clear.
  rewrite !handleCodeChange_code.
  rewrite (assign_in_range (verificationCode st)) by exact Hi.
  rewrite assign_in_range by (rewrite length_insert; exact Hi).
  apply list_insert_insert_eq.
Qed.

(** C7, as the code has it. For an index in 0..5 of a six-cell array whose
    cell at that index is empty, entering any text there and then clearing
    the cell gives back the array as it was. *)
Theorem enter_then_clear_restores (d : string) (i : nat) (st : VState) :
  (i < 6)%nat ->
  List.length (verificationCode st) = 6%nat ->
  verificationCode st !! i = Some EmptyString ->
  verificationCode (enter_then_clear d i st) = verificationCode st.
Proof.
  intros Hi Hlen Hcell.
  rewrite enter_then_clear_code by lia.
  now apply list_insert_id.
Qed.

Lemma enter_then_clear_restores_witness :
  verificationCode (enter_then_clear "4" 3 (with_verificationCode code_123 initial))
  = code_123.
Proof.
  apply (enter_then_clear_restores "4" 3 (with_verificationCode code_123 initial)).
  - lia.
  - reflexivity.
  - reflexivity.
Defined.

(** C7 as stated fails when the cell already holds a digit: overwriting
    the 7 at index 0 with a 3 and clearing leaves the cell empty. *)
Lemma enter_then_clear_counterexample :
  let code := ["7"; EmptyString; EmptyString; EmptyString; EmptyString; EmptyString] in
  List.length code = 6%nat /\
  well_formed code = true /\
  verificationCode (enter_then_clear "3" 0 (with_verificationCode code initial))
  = [EmptyString; EmptyString; EmptyString; EmptyString; EmptyString; EmptyString] /\
  verificationCode (enter_then_clear "3" 0 (with_verificationCode code initial))
  <> code.
Proof. repeat split. discriminate. Qed.

End VerifyProps.

(** ** Account deletion *)

Module SettingsProps.
Import Settings.

Ltac run_settings :=
  unfold confirmDeleteAccount, handleSignOut, setIsSigningOut, setIsDeletingAccount,
    throw_if, bind, ret, get, modify, emit, await, catch, finally, throw;
  cbn.

Section Delete.

Variable api : Backend.
Variable st : SState.

(** The deletion sequence on any backend: which calls are made, and whether
    it ends in the navigation or in the error alert. The outcome of the
    sign-out is looked at only when its promise rejects. *)
Lemma confirmDeleteAccount_runs :
  confirmDeleteAccount api st =
  let failed (calls : list Event) (err : JsError) :=
    (Normal tt, after_delete st,
     calls ++ [AlertShown "Error" (delete_alert_message err) []]) in
  match getUser api with
  | Rejected e => failed [Call GetUser] e
  | Resolved None => failed [Call GetUser] (Error "User not authenticated")
  | Resolved (Some u) =>
      match deleteProfile api (user_id u) with
      | Rejected e | Resolved (Some e) =>
          failed [Call GetUser; Call (DeleteProfile (user_id u))] e
      | Resolved None =>
          match adminDeleteUser api (user_id u) with
          | Rejected e | Resolved (Some e) =>
              failed [Call GetUser; Call (DeleteProfile (user_id u));
                      Call (AdminDeleteUser (user_id u))] e
          | Resolved None =>
              match signOut api with
              | Rejected e =>
                  failed [Call GetUser; Call (DeleteProfile (user_id u));
                          Call (AdminDeleteUser (user_id u)); Call SignOut] e
              | Resolved _ =>
                  (Normal tt, after_delete st,
                   [Call GetUser; Call (DeleteProfile (user_id u));
                    Call (AdminDeleteUser (user_id u)); Call SignOut;
                    RouterReplace "/auth/sign-in"])
              end
          end
      end
  end.
Proof.
  run_settings.
  destruct (getUser api) as [[u |] | e]; cbn; try reflexivity.
  destruct (deleteProfile api (user_id u)) as [[e |] | e]; cbn; try reflexivity.
  destruct (adminDeleteUser api (user_id u)) as [[e |] | e]; cbn; try reflexivity.
  destruct (signOut api) as [o | e]; reflexivity.
Qed.

(** A failure of one of the first three steps stops the sequence there:
    the trace is a prefix of the step sequence followed by the alert, with
    no sign-out and no navigation. *)
Lemma early_failure_aborts (u : User) (e : JsError) :
  getUser api = Resolved (Some u) ->
  (deleteProfile api (user_id u) = Resolved (Some e) ->
   trace (confirmDeleteAccount api st) =
   [Call GetUser; Call (DeleteProfile (user_id u));
    AlertShown "Error" (delete_alert_message e) []]) /\
  (deleteProfile api (user_id u) = Resolved None ->
   adminDeleteUser api (user_id u) = Resolved (Some e) ->
   trace (confirmDeleteAccount api st) =
   [Call GetUser; Call (DeleteProfile (user_id u)); Call (AdminDeleteUser (user_id u));
    AlertShown "Error" (delete_alert_message e) []]).
Proof.
  intros Hu. rewrite confirmDeleteAccount_runs, Hu. split.
  - intros ->. reflexivity.
  - intros -> ->. reflexivity.
Qed.

(** The sign-out handler of the same screen does look at the error. *)
Lemma handleSignOut_checks_error (e : JsError) :
  signOut api = Resolved (Some e) ->
  trace (handleSignOut api st) =
  [Call SignOut; AlertShown "Error" (or_default (message e) "Failed to sign out") []].
Proof. intros H. run_settings. rewrite H. reflexivity. Qed.

End Delete.

(** C8. When the current-user lookup yields no user, the confirmed
    deletion makes no further call (no profile deletion, no identity
    deletion, no sign-out) and does not navigate; it shows the error alert
    carrying "User not authenticated" and clears its busy flag. *)
Theorem confirmDeleteAccount_not_authenticated (api : Backend) (st : SState) :
  getUser api = Resolved None ->
  confirmDeleteAccount api st =
  (Normal tt, after_delete st,
   [Call GetUser;
    AlertShown "Error" (delete_alert_message (Error "User not authenticated")) []])
  /\ List.filter is_step (trace (confirmDeleteAccount api st)) = [Call GetUser]
  /\ List.filter is_alert (trace (confirmDeleteAccount api st)) =
     [AlertShown "Error"
        (String.append delete_failed_message
           (String.append newline
              (String.append newline "Error: User not authenticated"))) []].
Proof.
  intros H. rewrite confirmDeleteAccount_runs, H. repeat split.
Qed.

Lemma confirmDeleteAccount_not_authenticated_witness :
  List.filter is_step (trace (confirmDeleteAccount backend_no_user idle)) = [Call GetUser].
Proof.
  apply (confirmDeleteAccount_not_authenticated backend_no_user idle).
  reflexivity.
Defined.

(** C9. With both deletions done and a sign-out that reports an error, the
    sequence does not abort: it navigates to sign-in and shows no alert.
    Failures of the earlier steps do abort ([early_failure_aborts]), and
    the sign-out handler of the screen checks the same error
    ([handleSignOut_checks_error]). *)
Theorem confirmDeleteAccount_ignores_sign_out_error :
  signOut backend_sign_out_fails = Resolved (Some (Error "Network request failed")) /\
  confirmDeleteAccount backend_sign_out_fails idle =
  (Normal tt, idle,
   [Call GetUser; Call (DeleteProfile "u1"); Call (AdminDeleteUser "u1"); Call SignOut;
    RouterReplace "/auth/sign-in"]) /\
  List.filter is_alert (trace (confirmDeleteAccount backend_sign_out_fails idle)) = [] /\
  trace (handleSignOut backend_sign_out_fails idle) =
  [Call SignOut; AlertShown "Error" "Network request failed" []].
Proof. repeat split. Qed.

End SettingsProps.

(** ** Route guard: who gets where *)

Module LayoutFacts.
Import Layout LayoutProps.

(** While loading, and otherwise whenever a connection parameter is missing
    or empty, the session plays no part in what is shown. *)
Theorem loading_then_setup_take_priority (s1 s2 : option Session) (loading : bool)
    (env : Env) :
  loading = true \/ configPresent env = false ->
  RootLayout s1 loading env = RootLayout s2 loading env /\
  active_screens (RootLayout s1 loading env) =
    (if loading then [Loading] else [SetupRequired]).
Proof.
  intros [-> | Hc].
  - split; reflexivity.
  - destruct loading; [split; reflexivity |].
    rewrite !(RootLayout_setup_required _ _ Hc). split; reflexivity.
Qed.

Lemma loading_then_setup_take_priority_witness :
  active_screens
    (RootLayout (Some session_marker_absent) false
       {| EXPO_PUBLIC_SUPABASE_URL := Str "https://project.supabase.co";
          EXPO_PUBLIC_SUPABASE_ANON_KEY := Str EmptyString |})
  = [SetupRequired].
Proof.
  apply (loading_then_setup_take_priority (Some session_marker_absent) None false
           {| EXPO_PUBLIC_SUPABASE_URL := Str "https://project.supabase.co";
              EXPO_PUBLIC_SUPABASE_ANON_KEY := Str EmptyString |}).
  right. reflexivity.
Defined.

(** The main area is reachable exactly when loading is over, both
    connection parameters are set, there is a session, and its user either
    has a non-empty confirmation timestamp or is missing from the session. *)
Theorem main_area_access (session : option Session) (loading : bool) (env : Env) :
  active (RootLayout session loading env) MainArea = true <->
  loading = false /\ configPresent env = true /\
  exists s, session = Some s /\
    match user s with
    | Some u => truthy (email_confirmed_at u) = true
    | None => True
    end.
Proof.
  destruct loading.
  - split; [discriminate | intros [H _]; discriminate].
  - destruct (configPresent env) eqn:Hc.
    + rewrite (RootLayout_stack _ _ Hc). cbn [active].
      destruct session as [[[u |]] |]; cbn.
      * destruct (truthy (email_confirmed_at u)) eqn:Ht; cbn.
        -- split; [| reflexivity]. intros _. repeat split.
           eexists; split; [reflexivity |]. exact Ht.
        -- split; [discriminate |].
           intros (_ & _ & s & [= <-] & H). cbn in H. congruence.
      * split; [| reflexivity]. intros _. repeat split. eexists; split; reflexivity.
      * split; [discriminate |]. intros (_ & _ & s & [=] & _).
    + rewrite (RootLayout_setup_required _ _ Hc).
      split; [discriminate | intros (_ & [=] & _)].
Qed.

(** The auth area is reachable exactly when loading is over, both
    connection parameters are set, and there is no session or the session's
    user has a [null] confirmation marker. *)
Theorem auth_area_access (session : option Session) (loading : bool) (env : Env) :
  active (RootLayout session loading env) AuthArea = true <->
  loading = false /\ configPresent env = true /\
  match session with
  | None => True
  | Some s => exists u, user s = Some u /\ email_confirmed_at u = Null
  end.
Proof.
  destruct loading.
  - split; [discriminate | intros [H _]; discriminate].
  - destruct (configPresent env) eqn:Hc.
    + rewrite (RootLayout_stack _ _ Hc). cbn [active].
      destruct session as [[[u |]] |]; cbn.
      * unfold user_email_confirmed_at; cbn.
        destruct (email_confirmed_at u) eqn:Hm; cbn.
        -- split; [discriminate |]. intros (_ & _ & u' & [= <-] & H). congruence.
        -- split; [| reflexivity]. intros _. repeat split. eauto.
        -- split; [discriminate |]. intros (_ & _ & u' & [= <-] & H). congruence.
      * split; [discriminate |]. intros (_ & _ & u' & [=] & _).
      * split; [| reflexivity]. intros _. repeat split.
    + rewrite (RootLayout_setup_required _ _ Hc).
      split; [discriminate | intros (_ & [=] & _)].
Qed.

(** Signed out, or signed in with a [null] confirmation marker: the auth
    area and nothing else. *)
Theorem unconfirmed_routes_to_auth (session : option Session) (env : Env) :
  configPresent env = true ->
  match session with
  | None => True
  | Some s => exists u, user s = Some u /\ email_confirmed_at u = Null
  end ->
  active_screens (RootLayout session false env) = [AuthArea].
Proof.
  intros Hc Hs. rewrite active_screens_RootLayout, Hc. cbn.
  destruct session as [s |]; [| reflexivity].
  destruct Hs as (u & -> & ->). reflexivity.
Qed.

Lemma unconfirmed_routes_to_auth_witness :
  active_screens (RootLayout None false env_ok) = [AuthArea] /\
  active_screens
    (RootLayout (Some {| user := Some (mkUser "u1" "a@mail.utdt.edu" Null) |})
       false env_ok) = [AuthArea].
Proof.
  split.
  - apply (unconfirmed_routes_to_auth None env_ok); [reflexivity | exact I].
  - apply (unconfirmed_routes_to_auth
             (Some {| user := Some (mkUser "u1" "a@mail.utdt.edu" Null) |}) env_ok).
    + reflexivity.
    + eexists. split; reflexivity.
Defined.

(** A user with a confirmation timestamp: the main area and nothing else. *)
Theorem confirmed_user_routes_to_main (u : User) (env : Env) :
  configPresent env = true ->
  truthy (email_confirmed_at u) = true ->
  RootLayout (Some {| user := Some u |}) false env = StackView false true /\
  active_screens (RootLayout (Some {| user := Some u |}) false env) = [MainArea].
Proof.
  intros Hc Ht. rewrite (RootLayout_stack _ _ Hc).
  unfold tabs_redirect, auth_redirect, user_email_confirmed_at. cbn.
  destruct (email_confirmed_at u) as [| | m]; try discriminate.
  cbn in Ht |- *. rewrite Ht. split; reflexivity.
Qed.

Lemma confirmed_user_routes_to_main_witness :
  active_screens
    (RootLayout
       (Some {| user := Some (mkUser "u1" "a@mail.utdt.edu" (Str "2024-05-01T10:00:00Z")) |})
       false env_ok) = [MainArea].
Proof.
  apply (confirmed_user_routes_to_main
           (mkUser "u1" "a@mail.utdt.edu" (Str "2024-05-01T10:00:00Z")) env_ok);
    reflexivity.
Defined.

(** The two guarded screens are never reachable together, and no input
    makes the guard show two screens. *)
Theorem never_two_screens (session : option Session) (loading : bool) (env : Env) :
  (List.length (active_screens (RootLayout session loading env)) <= 1)%nat /\
  (active (RootLayout session loading env) AuthArea
   && active (RootLayout session loading env) MainArea = false).
Proof.
  split.
  - rewrite active_screens_RootLayout.
    destruct loading; [cbn; lia |].
    destruct (negb (configPresent env)); [cbn; lia |].
    destruct session as [[[[i e c] |]] |]; cbn; try lia.
    destruct c as [| | [| a m]]; cbn; lia.
  - destruct loading; [reflexivity |].
    destruct (configPresent env) eqn:Hc.
    + rewrite (RootLayout_stack _ _ Hc).
      destruct session as [[[[i e c] |]] |]; try reflexivity.
      destruct c as [| | [| a m]]; reflexivity.
    + rewrite (RootLayout_setup_required _ _ Hc). reflexivity.
Qed.

Lemma main_area_access_witness :
  active
    (RootLayout
       (Some {| user := Some (mkUser "u1" "a@mail.utdt.edu" (Str "2024-05-01T10:00:00Z")) |})
       false env_ok) MainArea = true.
Proof.
  apply (proj2 (main_area_access
                  (Some {| user := Some (mkUser "u1" "a@mail.utdt.edu"
                                           (Str "2024-05-01T10:00:00Z")) |})
                  false env_ok)).
  split; [reflexivity |]. split; [reflexivity |].
  eexists. split; reflexivity.
Defined.

Lemma auth_area_access_witness :
  active (RootLayout None false env_ok) AuthArea = true.
Proof.
  apply (proj2 (auth_area_access None false env_ok)).
  split; [reflexivity |]. split; [reflexivity | exact I].
Defined.

End LayoutFacts.

(** ** Verification screen: digit entry *)

Module EntryFacts.
Import Verify VerifyProps Machine.

Lemma keep_digits_length (s : string) :
  (String.length (keep_digits s) <= String.length s)%nat.
Proof.
  induction s as [| c s IH]; cbn; [lia |].
  destruct (is_digit c); cbn; lia.
Qed.

Lemma keep_digits_all_digits (s : string) :
  forallb is_digit (list_ascii_of_string (keep_digits s)) = true.
Proof.
  induction s as [| c s IH]; cbn; [reflexivity |].
  destruct (is_digit c) eqn:Hc; cbn; [now rewrite Hc |]. exact IH.
Qed.

Lemma keep_digits_fixed (s : string) :
  forallb is_digit (list_ascii_of_string s) = true -> keep_digits s = s.
Proof.
  induction s as [| c s IH]; cbn; [reflexivity |].
  intros H. apply andb_true_iff in H as [-> H]. now rewrite IH.
Qed.

(** The digit filter of the inputs keeps exactly the decimal digits, in
    order: what comes out holds digits only and is no longer than what went
    in, text made of digits passes unchanged, and filtering twice is
    filtering once. *)
Theorem keep_digits_filters (s : string) :
  forallb is_digit (list_ascii_of_string (keep_digits s)) = true /\
  (String.length (keep_digits s) <= String.length s)%nat /\
  (forallb is_digit (list_ascii_of_string s) = true -> keep_digits s = s) /\
  keep_digits (keep_digits s) = keep_digits s.
Proof.
  split; [apply keep_digits_all_digits |].
  split; [apply keep_digits_length |].
  split; [apply keep_digits_fixed |].
  apply keep_digits_fixed, keep_digits_all_digits.
Qed.

Lemma keep_digits_filters_witness :
  keep_digits "2024" = "2024" /\ keep_digits "a1-b2 c3" = "123".
Proof.
  split; [| reflexivity].
  apply (proj1 (proj2 (proj2 (keep_digits_filters "2024")))). reflexivity.
Defined.

(** Digit entry at an existing cell writes that cell and nothing else: the
    array keeps its length, the other cells, the error banner, the busy flag
    and the cooldown are as before, and no call is made. *)
Theorem handleCodeChange_writes_one_cell (text : string) (i : nat) (st : VState) :
  (i < List.length (verificationCode st))%nat ->
  List.length (verificationCode (final_state (handleCodeChange text i st)))
    = List.length (verificationCode st) /\
  verificationCode (final_state (handleCodeChange text i st)) !! i = Some text /\
  (forall j : nat, j <> i ->
     verificationCode (final_state (handleCodeChange text i st)) !! j
     = verificationCode st !! j) /\
  error (final_state (handleCodeChange text i st)) = error st /\
  isLoading (final_state (handleCodeChange text i st)) = isLoading st /\
  resendCooldown (final_state (handleCodeChange text i st)) = resendCooldown st /\
  calls (trace (handleCodeChange text i st)) = [].
Proof.
  intros Hi. rewrite handleCodeChange_code, (assign_in_range _ _ _ Hi).
  split; [apply length_insert |].
  split; [now apply list_lookup_insert_eq |].
  split; [intros j Hj; apply list_lookup_insert_ne; congruence |].
  run_handler. destruct (_ && _); repeat split.
Qed.

Lemma handleCodeChange_writes_one_cell_witness :
  verificationCode
    (final_state (handleCodeChange "4" 3 (with_verificationCode code_123 initial))) !! 3
  = Some "4".
Proof.
  apply (handleCodeChange_writes_one_cell "4" 3 (with_verificationCode code_123 initial)).
  cbn. lia.
Defined.

Lemma join_app (a b : list string) : join (a ++ b) = (join a ++ join b)%string.
Proof.
  induction a as [| x a IH]; [reflexivity |].
  change ((x :: a) ++ b) with (x :: (a ++ b)).
  rewrite !join_cons, IH. clear IH.
  induction x as [| c x IHx]; cbn; [reflexivity | now rewrite IHx].
Qed.

Lemma join_replicate_empty (n : nat) : join (replicate n EmptyString) = EmptyString.
Proof.
  induction n as [| n IH]; [reflexivity |].
  change (replicate (S n) EmptyString) with (EmptyString :: replicate n EmptyString).
  now rewrite join_cons, IH.
Qed.

(** Digit entry past the end of the array grows it up to that index; the
    added text lands at the end of the joined code. *)
Theorem handleCodeChange_past_the_end (text : string) (i : nat) (st : VState) :
  (List.length (verificationCode st) <= i)%nat ->
  List.length (verificationCode (final_state (handleCodeChange text i st))) = S i /\
  verificationCode (final_state (handleCodeChange text i st)) !! i = Some text /\
  join (verificationCode (final_state (handleCodeChange text i st)))
  = (join (verificationCode st) ++ text)%string.
Proof.
  intros Hi. rewrite handleCodeChange_code. unfold assign.
  destruct (Nat.ltb_spec i (List.length (verificationCode st))) as [Hlt | _]; [lia |].
  split; [| split].
  - rewrite !length_app, length_replicate. cbn. lia.
  - rewrite lookup_app_r by lia.
    rewrite lookup_app_r by (rewrite length_replicate; lia).
    rewrite length_replicate.
    replace (i - _ - _)%nat with 0%nat by lia. reflexivity.
  - rewrite !join_app, join_replicate_empty. reflexivity.
Qed.

Lemma handleCodeChange_past_the_end_witness :
  join (verificationCode
          (final_state (handleCodeChange "7" 8 (with_verificationCode code_123456 initial))))
  = "1234567".
Proof.
  apply (handleCodeChange_past_the_end "7" 8 (with_verificationCode code_123456 initial)).
  cbn. lia.
Defined.

Lemma handleCodeChange_trace (text : string) (i : nat) (st : VState) :
  trace (handleCodeChange text i st) =
  if (String.length text =? 1)%nat && (i <? 5)%nat then [Focus (i + 1)] else [].
Proof.
  unfold handleCodeChange, setVerificationCode, bind, get, modify, emit, ret, trace.
  destruct ((String.length text =? 1)%nat && (i <? 5)%nat); reflexivity.
Qed.

(** Focus after digit entry: a single character in one of the first five
    cells asks for the next cell; clearing a cell, or typing in the last
    cell, asks for nothing. *)
Theorem handleCodeChange_focus (text : string) (i : nat) (st : VState) :
  (String.length text = 1%nat -> (i < 5)%nat ->
   trace (handleCodeChange text i st) = [Focus (S i)]) /\
  trace (handleCodeChange EmptyString i st) = [] /\
  ((5 <= i)%nat -> trace (handleCodeChange text i st) = []).
Proof.
  rewrite !handleCodeChange_trace. split; [| split].
  - intros -> Hi. destruct (Nat.ltb_spec i 5); [| lia].
    cbn [Nat.eqb andb]. now rewrite Nat.add_1_r.
  - reflexivity.
  - intros Hi. destruct (Nat.ltb_spec i 5); [lia |]. now rewrite andb_false_r.
Qed.

Lemma handleCodeChange_focus_witness :
  trace (handleCodeChange "4" 3 (with_verificationCode code_123 initial)) = [Focus 4] /\
  trace (handleCodeChange "6" 5 (with_verificationCode code_123 initial)) = [].
Proof.
  split.
  - apply (handleCodeChange_focus "4" 3 (with_verificationCode code_123 initial));
      [reflexivity | lia].
  - apply (handleCodeChange_focus "6" 5 (with_verificationCode code_123 initial)). lia.
Defined.

Lemma handleKeyPress_runs (key : string) (i : nat) (st : VState) :
  handleKeyPress key i st =
  (Normal tt, st,
   if (key =? "Backspace")%string && (0 <? i)%nat && cell_empty (verificationCode st) i
      && input_mounted st (i - 1)
   then [Focus (i - 1)] else []).
Proof.
  unfold handleKeyPress, bind, get, emit, ret.
  destruct ((key =? "Backspace")%string && (0 <? i)%nat
            && cell_empty (verificationCode st) i); [| reflexivity].
  destruct (input_mounted st (i - 1)); reflexivity.
Qed.

(** A key press changes no state. It asks for the previous cell when the key
    is Backspace, the cell is not the first, is empty, and an input for the
    previous cell exists; any other key, the first cell, a cell holding a
    digit, or a previous cell past the rendered inputs asks for nothing. On
    one of the rendered cells the last condition always holds. *)
Theorem handleKeyPress_moves_focus_back (key : string) (i : nat) (st : VState) :
  final_state (handleKeyPress key i st) = st /\
  (key = "Backspace" -> (0 < i)%nat -> cell_empty (verificationCode st) i = true ->
   (i - 1 < List.length (verificationCode st))%nat ->
   trace (handleKeyPress key i st) = [Focus (i - 1)]) /\
  (key <> "Backspace" \/ i = 0%nat \/ cell_empty (verificationCode st) i = false
   \/ (List.length (verificationCode st) <= i - 1)%nat ->
   trace (handleKeyPress key i st) = []) /\
  ((i < List.length (verificationCode st))%nat -> input_mounted st (i - 1) = true).
Proof.
  rewrite handleKeyPress_runs. split; [reflexivity |]. cbn [trace snd].
  unfold input_mounted. split; [| split].
  - intros -> Hi -> Hm.
    destruct (Nat.ltb_spec 0 i); [| lia].
    destruct (Nat.ltb_spec (i - 1) (List.length (verificationCode st))); [reflexivity | lia].
  - intros [Hk | [-> | [-> | Hm]]].
    + destruct (String.eqb_spec key "Backspace"); [contradiction | reflexivity].
    + now rewrite andb_false_r.
    + now rewrite andb_false_r.
    + destruct (Nat.ltb_spec (i - 1) (List.length (verificationCode st))); [lia |].
      now rewrite andb_false_r.
  - intros Hi. apply Nat.ltb_lt. lia.
Qed.

Lemma handleKeyPress_moves_focus_back_witness :
  trace (handleKeyPress "Backspace" 3 (with_verificationCode code_123 initial)) = [Focus 2] /\
  trace (handleKeyPress "Backspace" 2 (with_verificationCode code_123 initial)) = [] /\
  trace (handleKeyPress "Backspace" 7 (with_verificationCode code_123 initial)) = [].
Proof.
  split; [| split].
  - apply (handleKeyPress_moves_focus_back "Backspace" 3
             (with_verificationCode code_123 initial));
      [reflexivity | lia | reflexivity | cbn; lia].
  - apply (handleKeyPress_moves_focus_back "Backspace" 2
             (with_verificationCode code_123 initial)).
    right. right. left. reflexivity.
  - apply (handleKeyPress_moves_focus_back "Backspace" 7
             (with_verificationCode code_123 initial)).
    right. right. right. cbn. lia.
Defined.

End EntryFacts.

(** ** Verification screen: submit, resend, mount and timer *)

Module VerifyFacts.
Import Verify VerifyProps Machine.

(** *** Submit *)

(** A complete code reaches the provider: with single-digit cells all
    filled, the submit handler makes exactly one call, the verify operation
    with the address and the six digits in order. *)
Theorem handleVerify_complete_code (email : string) (api : AuthApi) (st : VState) :
  well_formed (verificationCode st) = true ->
  filled (verificationCode st) = 6%nat ->
  calls (trace (handleVerify email api st))
  = [Call (VerifyOTP email (join (verificationCode st)))] /\
  String.length (join (verificationCode st)) = 6%nat.
Proof.
  intros Hwf Hf.
  assert (Hlen : String.length (join (verificationCode st)) = 6%nat)
    by now rewrite (length_join _ Hwf).
  split; [| exact Hlen].
  rewrite (handleVerify_submits _ _ _ Hlen).
  destruct (verifyOTP api email (join (verificationCode st))) as [r | e];
    [destruct (verify_error r); [| destruct (data_session (data r))] |]; reflexivity.
Qed.

Lemma handleVerify_complete_code_witness :
  calls (trace (handleVerify "a@mail.utdt.edu" (api_with verify_signed_out resend_ok)
                  (with_verificationCode code_123456 initial)))
  = [Call (VerifyOTP "a@mail.utdt.edu" "123456")].
Proof.
  apply (handleVerify_complete_code "a@mail.utdt.edu"
           (api_with verify_signed_out resend_ok)
           (with_verificationCode code_123456 initial)); reflexivity.
Defined.

(** The submit handler never throws, calls the provider at most once, leaves
    the cooldown alone, and whenever it did call the provider the busy flag
    is off when it ends. *)
Theorem handleVerify_cleans_up (email : string) (api : AuthApi) (st : VState) :
  completion (handleVerify email api st) = Normal tt /\
  (List.length (calls (trace (handleVerify email api st))) <= 1)%nat /\
  resendCooldown (final_state (handleVerify email api st)) = resendCooldown st /\
  (calls (trace (handleVerify email api st)) <> [] ->
   isLoading (final_state (handleVerify email api st)) = false).
Proof.
  destruct (Nat.eq_dec (String.length (join (verificationCode st))) 6) as [H | H].
  - rewrite (handleVerify_submits _ _ _ H).
    destruct (verifyOTP api email (join (verificationCode st))) as [r | e];
      [destruct (verify_error r); [| destruct (data_session (data r))] |];
      cbn; repeat split; lia.
  - rewrite (handleVerify_rejects _ _ _ H). cbn. repeat split; [lia |].
    intros C. now contradiction C.
Qed.

Lemma handleVerify_cleans_up_witness :
  isLoading
    (final_state
       (handleVerify "a@mail.utdt.edu"
          (api_with (Rejected (Error "Network request failed")) resend_ok)
          (with_verificationCode code_123456 initial))) = false.
Proof.
  apply (handleVerify_cleans_up "a@mail.utdt.edu"
           (api_with (Rejected (Error "Network request failed")) resend_ok)
           (with_verificationCode code_123456 initial)).
  discriminate.
Defined.

(** A submit leaves nothing behind that a later submit depends on: submitting
    again after any outcome behaves exactly like submitting from the state
    before the first attempt. *)
Theorem handleVerify_retry (email : string) (api1 api2 : AuthApi) (st : VState) :
  handleVerify email api2 (final_state (handleVerify email api1 st))
  = handleVerify email api2 st.
Proof.
  destruct (Nat.eq_dec (String.length (join (verificationCode st))) 6) as [H | H].
  - assert (E : exists o, final_state (handleVerify email api1 st) = settled st o).
    { rewrite (handleVerify_submits _ _ _ H).
      destruct (verifyOTP api1 email (join (verificationCode st))) as [r | e];
        [destruct (verify_error r) |]; eexists; reflexivity. }
    destruct E as [o ->].
    rewrite (handleVerify_submits email api2 (settled st o)) by exact H.
    rewrite (handleVerify_submits email api2 st) by exact H.
    cbn [settled verificationCode].
    destruct (verifyOTP api2 email (join (verificationCode st))) as [r | e];
      [destruct (verify_error r) |]; reflexivity.
  - rewrite (handleVerify_rejects email api1 st H).
    cbn [final_state fst snd].
    rewrite (handleVerify_rejects email api2 (with_error _ st)) by exact H.
    rewrite (handleVerify_rejects email api2 st H). reflexivity.
Qed.

(** *** Resend *)

(** A resend that the provider refuses, by an error result or a rejected
    promise: the banner holds the error's message, or the generic resend
    text when the message is empty or missing; nothing else is shown, the
    cooldown is not started, and the resend control stays enabled. *)
Theorem handleResendCode_failure (email : string) (api : AuthApi) (st : VState)
    (e : JsError) :
  (resendCooldown st <= 0)%Z ->
  resendVerificationEmail api email = Resolved {| resend_error := Some e |}
  \/ resendVerificationEmail api email = Rejected e ->
  handleResendCode email api st =
  (Normal tt,
   settled st (Some match message e with
                    | Str (String c m) => String c m
                    | _ => resend_failed_message
                    end),
   [Call (ResendVerificationEmail email)]) /\
  resend_disabled (final_state (handleResendCode email api st)) = false.
Proof.
  intros Hc Hr. rewrite handleResendCode_runs.
  destruct (Z.ltb_spec 0 (resendCooldown st)) as [Hp | Hp]; [lia |].
  assert (Hm : or_default (message e) resend_failed_message =
               match message e with
               | Str (String c m) => String c m
               | _ => resend_failed_message
               end) by (destruct (message e) as [| | [| c m]]; reflexivity).
  assert (Hd : forall o, resend_disabled (settled st o) = false).
  { intros o. unfold resend_disabled. cbn.
    destruct (Z.ltb_spec 0 (resendCooldown st)); [lia | reflexivity]. }
  destruct Hr as [-> | ->]; cbn; rewrite Hm; split; try reflexivity; apply Hd.
Qed.

Lemma handleResendCode_failure_witness :
  error (final_state (handleResendCode "a@mail.utdt.edu"
                        (api_with verify_signed_in resend_fails) initial))
  = Some "Email rate limit exceeded".
Proof.
  pose proof (handleResendCode_failure "a@mail.utdt.edu"
                (api_with verify_signed_in resend_fails) initial
                (Error "Email rate limit exceeded")) as H.
  destruct H as [E _]; [cbn; lia | left; reflexivity |].
  now rewrite E.
Defined.

(** The resend handler never throws, never touches the digit cells, calls
    the provider at most once, leaves the busy flag off whenever it called,
    and either keeps the cooldown or sets it to 60. *)
Theorem handleResendCode_cleans_up (email : string) (api : AuthApi) (st : VState) :
  completion (handleResendCode email api st) = Normal tt /\
  verificationCode (final_state (handleResendCode email api st)) = verificationCode st /\
  (List.length (calls (trace (handleResendCode email api st))) <= 1)%nat /\
  (calls (trace (handleResendCode email api st)) <> [] ->
   isLoading (final_state (handleResendCode email api st)) = false) /\
  (resendCooldown (final_state (handleResendCode email api st)) = resendCooldown st
   \/ resendCooldown (final_state (handleResendCode email api st)) = 60%Z).
Proof.
  rewrite handleResendCode_runs.
  destruct (0 <? resendCooldown st)%Z.
  - cbn. repeat split; [lia | | now left]. intros C. now contradiction C.
  - destruct (resendVerificationEmail api email) as [[[e |]] | e]; cbn;
      repeat split; try lia; auto.
Qed.

Lemma handleResendCode_cleans_up_witness :
  isLoading (final_state (handleResendCode "a@mail.utdt.edu"
                            (api_with verify_signed_in resend_fails)
                            (with_isLoading true initial))) = false.
Proof.
  apply (handleResendCode_cleans_up "a@mail.utdt.edu"
           (api_with verify_signed_in resend_fails) (with_isLoading true initial)).
  discriminate.
Defined.

(** *** The mount effect *)

(** When the session already shows this address as confirmed, mounting the
    screen only replaces the route by the main area: no code is sent and the
    state is untouched, whatever cooldown the effect closed over. *)
Theorem checkVerificationStatus_already_verified (email : string) (api : AuthApi)
    (resendCooldown0 : Z) (st : VState) (s : option Session) :
  getSession api = Resolved s ->
  already_verified email s = true ->
  checkVerificationStatus email api resendCooldown0 st
  = (Normal tt, st, [Call GetSession; RouterReplace "/(tabs)"]).
Proof.
  intros Hs Hv.
  unfold checkVerificationStatus, catch, bind, await, get, emit.
  rewrite Hs, Hv. reflexivity.
Qed.

Lemma checkVerificationStatus_already_verified_witness :
  trace (checkVerificationStatus "a@mail.utdt.edu"
           {| getSession := Resolved (Some {| user := Some Settings.some_user |});
              verifyOTP := fun _ _ => verify_signed_in;
              resendVerificationEmail := fun _ => resend_ok |}
           0 initial)
  = [Call GetSession; RouterReplace "/(tabs)"].
Proof.
  rewrite (checkVerificationStatus_already_verified "a@mail.utdt.edu"
             {| getSession := Resolved (Some {| user := Some Settings.some_user |});
                verifyOTP := fun _ _ => verify_signed_in;
                resendVerificationEmail := fun _ => resend_ok |}
             0 initial
             (Some {| user := Some Settings.some_user |}) eq_refl eq_refl).
  reflexivity.
Defined.

Lemma handleResendCode_from_zero (email : string) (api : AuthApi) (st : VState) :
  handleResendCode_from email api 0 st =
  match resendVerificationEmail api email with
  | Resolved r =>
      match resend_error r with
      | None =>
          (Normal tt, with_resendCooldown 60 (settled st None),
           [Call (ResendVerificationEmail email);
            AlertShown "Code Sent"
              "A new verification code has been sent to your email." []])
      | Some e =>
          (Normal tt,
           settled st (Some (or_default (message e) resend_failed_message)),
           [Call (ResendVerificationEmail email)])
      end
  | Rejected e =>
      (Normal tt,
       settled st (Some (or_default (message e) resend_failed_message)),
       [Call (ResendVerificationEmail email)])
  end.
Proof.
  run_handler.
  destruct (resendVerificationEmail api email) as [[[e |]] | e]; reflexivity.
Qed.

(** What the mount effect calls. After the session lookup it sends one code
    exactly when the lookup settled, the address is not already confirmed in
    the session, the address is not empty and the cooldown of the render that
    ran the effect was 0. The state at the time the lookup returns plays no
    part: a cooldown that has become positive or a busy flag that is set does
    not hold the code back. The effect never throws, and a failed lookup
    changes nothing. The last part says the same of the event loop: when the
    lookup settles in any world, the resend call goes out on the same
    condition. *)
Theorem checkVerificationStatus_calls (email : string) (api : AuthApi)
    (resendCooldown0 : Z) (st : VState) :
  completion (checkVerificationStatus email api resendCooldown0 st) = Normal tt /\
  calls (trace (checkVerificationStatus email api resendCooldown0 st)) =
  match getSession api with
  | Resolved s =>
      if negb (already_verified email s) && nonempty email
         && (resendCooldown0 =? 0)%Z
      then [Call GetSession; Call (ResendVerificationEmail email)]
      else [Call GetSession]
  | Rejected _ => [Call GetSession]
  end /\
  (forall e, getSession api = Rejected e ->
     checkVerificationStatus email api resendCooldown0 st
     = (Normal tt, st, [Call GetSession])) /\
  (forall (w : World) (k : nat) (p : Promise (option Session)),
     inflight w !! k = Some (AwaitSession resendCooldown0) ->
     exists w' t,
       fire email (Settled k (SessionAnswer p)) w = Some (w', t) /\
       calls t =
       match p with
       | Resolved s =>
           if negb (already_verified email s) && nonempty email
              && (resendCooldown0 =? 0)%Z
           then [Call (ResendVerificationEmail email)]
           else []
       | Rejected _ => []
       end).
Proof.
  split; [| split; [| split]].
  - unfold checkVerificationStatus, catch, bind, await, emit, ret.
    destruct (getSession api) as [s | e]; [| reflexivity].
    destruct (already_verified email s); [reflexivity |].
    destruct (nonempty email); cbn [andb]; [| reflexivity].
    destruct (Z.eqb_spec resendCooldown0 0) as [-> | H0]; [| reflexivity].
    rewrite handleResendCode_from_zero.
    destruct (resendVerificationEmail api email) as [[[e |]] | e]; reflexivity.
  - unfold checkVerificationStatus, catch, bind, await, emit, ret.
    destruct (getSession api) as [s | e]; [| reflexivity].
    destruct (already_verified email s); cbn [negb andb]; [reflexivity |].
    destruct (nonempty email); cbn [andb]; [| reflexivity].
    destruct (Z.eqb_spec resendCooldown0 0) as [-> | H0]; [| reflexivity].
    rewrite handleResendCode_from_zero.
    destruct (resendVerificationEmail api email) as [[[e |]] | e]; reflexivity.
  - intros e He.
    unfold checkVerificationStatus, catch, bind, await, emit, ret.
    now rewrite He.
  - intros w k p Hk. unfold fire. rewrite Hk.
    unfold checkVerificationStatus_resume, handleResendCode_begin, settle, catch,
      bind, ret, emit, throw, setIsLoading, setError, modify.
    destruct p as [s | e]; [| eexists _, _; split; reflexivity].
    destruct (already_verified email s); cbn [negb andb];
      [eexists _, _; split; reflexivity |].
    destruct (nonempty email); cbn [andb]; [| eexists _, _; split; reflexivity].
    destruct (Z.eqb_spec resendCooldown0 0) as [-> | H0];
      eexists _, _; split; reflexivity.
Qed.

Lemma checkVerificationStatus_calls_witness :
  checkVerificationStatus "a@mail.utdt.edu"
    {| getSession := Rejected (Error "Network request failed");
       verifyOTP := fun _ _ => verify_signed_in;
       resendVerificationEmail := fun _ => resend_ok |}
    0 initial
  = (Normal tt, initial, [Call GetSession]).
Proof.
  apply (checkVerificationStatus_calls "a@mail.utdt.edu"
           {| getSession := Rejected (Error "Network request failed");
              verifyOTP := fun _ _ => verify_signed_in;
              resendVerificationEmail := fun _ => resend_ok |}
           0 initial) with (e := Error "Network request failed").
  reflexivity.
Defined.

(** The stale guard at work: the effect of a render with cooldown 0, resumed
    on a state whose cooldown is 60 and whose busy flag is set, still
    sends. *)
Lemma checkVerificationStatus_sends_during_cooldown :
  calls (trace (checkVerificationStatus "a@mail.utdt.edu"
                  (api_with verify_signed_in resend_ok) 0
                  (with_isLoading true (with_resendCooldown 60 initial))))
  = [Call GetSession; Call (ResendVerificationEmail "a@mail.utdt.edu")].
Proof. reflexivity. Qed.

(** *** The countdown *)

(** The countdown stops at zero: once as many seconds have passed as the
    cooldown held, it is zero and stays zero, and a timer step at zero
    changes nothing. The digit cells, the banner and the busy flag are never
    touched by the timer. *)
Theorem countdown_stops_at_zero (n : nat) (st : VState) :
  ((0 <= resendCooldown st <= Z.of_nat n)%Z -> resendCooldown (elapse n st) = 0%Z) /\
  ((resendCooldown st <= 0)%Z -> elapse n st = st) /\
  verificationCode (elapse n st) = verificationCode st /\
  error (elapse n st) = error st /\
  isLoading (elapse n st) = isLoading st.
Proof.
  split; [| split].
  - intros H. rewrite elapse_cooldown; lia.
  - intros H. unfold elapse. induction n as [| n IH]; [reflexivity |].
    rewrite Nat.iter_succ, IH. unfold cooldownTimer.
    destruct (Z.ltb_spec 0 (resendCooldown st)); [lia | reflexivity].
  - unfold elapse. induction n as [| n IH]; [repeat split |].
    rewrite Nat.iter_succ.
    destruct (cooldownTimer_frame (Nat.iter n cooldownTimer st)) as (-> & -> & ->).
    exact IH.
Qed.

Lemma countdown_stops_at_zero_witness :
  resendCooldown (elapse 75 (with_resendCooldown 60 initial)) = 0%Z.
Proof.
  apply (countdown_stops_at_zero 75 (with_resendCooldown 60 initial)).
  cbn. lia.
Defined.

End VerifyFacts.

(** ** Verification screen: what holds at every turn of the event loop *)

Module ReachableFacts.
Import Verify VerifyProps Machine.

(** *** The handlers in two halves *)

Lemma handleVerify_begin_runs (email : string) (st : VState) :
  handleVerify_begin email st =
  if (String.length (join (verificationCode st)) =? 6)%nat
  then (Normal (Some AwaitVerify), with_error None (with_isLoading true st),
        [Call (VerifyOTP email (join (verificationCode st)))])
  else (Normal None, with_error (Some incomplete_code_message) st, []).
Proof.
  unfold handleVerify_begin, setError, setIsLoading, bind, get, modify, emit, ret.
  destruct (String.length (join (verificationCode st)) =? 6)%nat; reflexivity.
Qed.

Lemma handleVerify_resume_runs (p : Promise VerifyResult) (st : VState) :
  handleVerify_resume p st =
  match p with
  | Resolved r =>
      match verify_error r with
      | Some e => (Normal tt, settled st (Some (lastError e)), [])
      | None =>
          (Normal tt, with_isLoading false st,
           [match data_session (data r) with
            | Some _ =>
                AlertShown verified_title verified_signed_in_message [continue_button]
            | None =>
                AlertShown verified_title verified_signed_out_message [sign_in_button]
            end])
      end
  | Rejected e => (Normal tt, settled st (Some (lastError e)), [])
  end.
Proof.
  unfold handleVerify_resume, settle, setError, setIsLoading, throw_if, bind, ret,
    modify, emit, catch, finally, throw.
  destruct p as [[[e |] d] | e]; cbn; try reflexivity.
  destruct (data_session d); reflexivity.
Qed.

Lemma handleResendCode_begin_runs (email : string) (c : Z) (st : VState) :
  handleResendCode_begin email c st =
  if (0 <? c)%Z then (Normal None, st, [])
  else (Normal (Some AwaitResend), with_error None (with_isLoading true st),
        [Call (ResendVerificationEmail email)]).
Proof.
  unfold handleResendCode_begin, setError, setIsLoading, bind, modify, emit, ret.
  destruct (0 <? c)%Z; reflexivity.
Qed.

Lemma handleResendCode_resume_runs (p : Promise ResendResult) (st : VState) :
  handleResendCode_resume p st =
  match p with
  | Resolved r =>
      match resend_error r with
      | Some e =>
          (Normal tt, settled st (Some (or_default (message e) resend_failed_message)), [])
      | None =>
          (Normal tt, with_isLoading false (with_resendCooldown 60 st),
           [AlertShown "Code Sent"
              "A new verification code has been sent to your email." []])
      end
  | Rejected e =>
      (Normal tt, settled st (Some (or_default (message e) resend_failed_message)), [])
  end.
Proof.
  unfold handleResendCode_resume, settle, setError, setIsLoading, setResendCooldown,
    throw_if, bind, ret, modify, emit, catch, finally, throw.
  destruct p as [[[e |]] | e]; reflexivity.
Qed.

Lemma checkVerificationStatus_resume_runs (email : string) (c : Z)
    (p : Promise (option Session)) (st : VState) :
  checkVerificationStatus_resume email c p st =
  match p with
  | Resolved s =>
      if already_verified email s then (Normal None, st, [RouterReplace "/(tabs)"])
      else if nonempty email && (c =? 0)%Z
           then (Normal (Some AwaitResend), with_error None (with_isLoading true st),
                 [Call (ResendVerificationEmail email)])
      else (Normal None, st, [])
  | Rejected _ => (Normal None, st, [])
  end.
Proof.
  unfold checkVerificationStatus_resume, settle, catch, bind, ret, emit, throw.
  destruct p as [s | e]; [| reflexivity].
  destruct (already_verified email s); [reflexivity |].
  destruct (nonempty email); cbn [andb]; [| reflexivity].
  destruct (Z.eqb_spec c 0) as [-> | Hc]; [| reflexivity].
  rewrite handleResendCode_begin_runs. reflexivity.
Qed.

(** Run to completion is the first half followed at once by the second. *)
Lemma handleVerify_split (email : string) (api : AuthApi) (st : VState) :
  handleVerify email api st =
  match handleVerify_begin email st with
  | (Normal (Some _), st1, t1) =>
      match handleVerify_resume (verifyOTP api email (join (verificationCode st))) st1 with
      | (c, st2, t2) => (c, st2, t1 ++ t2)
      end
  | (_, st1, t1) => (Normal tt, st1, t1)
  end.
Proof.
  rewrite handleVerify_begin_runs.
  destruct (Nat.eqb_spec (String.length (join (verificationCode st))) 6) as [H | H].
  - rewrite (handleVerify_submits _ _ _ H), handleVerify_resume_runs.
    destruct (verifyOTP api email (join (verificationCode st))) as [r | e];
      [destruct (verify_error r) |]; reflexivity.
  - now rewrite (handleVerify_rejects _ _ _ H).
Qed.

Lemma handleResendCode_split (email : string) (api : AuthApi) (st : VState) :
  handleResendCode email api st =
  match handleResendCode_begin email (resendCooldown st) st with
  | (Normal (Some _), st1, t1) =>
      match handleResendCode_resume (resendVerificationEmail api email) st1 with
      | (c, st2, t2) => (c, st2, t1 ++ t2)
      end
  | (_, st1, t1) => (Normal tt, st1, t1)
  end.
Proof.
  rewrite handleResendCode_runs, handleResendCode_begin_runs.
  destruct (0 <? resendCooldown st)%Z; [reflexivity |].
  rewrite handleResendCode_resume_runs.
  destruct (resendVerificationEmail api email) as [[[e |]] | e]; reflexivity.
Qed.

Lemma checkVerificationStatus_split (email : string) (api : AuthApi) (c : Z)
    (st : VState) :
  checkVerificationStatus email api c st =
  match checkVerificationStatus_resume email c (getSession api) st with
  | (Normal (Some _), st1, t1) =>
      match handleResendCode_resume (resendVerificationEmail api email) st1 with
      | (r, st2, t2) => (r, st2, Call GetSession :: t1 ++ t2)
      end
  | (_, st1, t1) => (Normal tt, st1, Call GetSession :: t1)
  end.
Proof.
  rewrite checkVerificationStatus_resume_runs.
  unfold checkVerificationStatus, catch, bind, await, emit, ret.
  destruct (getSession api) as [s | e]; [| reflexivity].
  destruct (already_verified email s); [reflexivity |].
  destruct (nonempty email); cbn [andb]; [| reflexivity].
  destruct (Z.eqb_spec c 0) as [-> | Hc]; [| reflexivity].
  rewrite VerifyFacts.handleResendCode_from_zero, handleResendCode_resume_runs.
  destruct (resendVerificationEmail api email) as [[[e |]] | e]; reflexivity.
Qed.

(** *** What every turn keeps *)

Lemma onChangeText_state (text : string) (i : nat) (st : VState) :
  final_state (onChangeText text i st)
  = with_verificationCode (assign (verificationCode st) i (keep_digits text)) st.
Proof. run_handler. destruct (_ && _); reflexivity. Qed.

Lemma existsb_delete_idle (l : list Pending) (k : nat) (p : Pending) :
  l !! k = Some p -> under_busy_flag p = false ->
  existsb under_busy_flag (delete k l) = existsb under_busy_flag l.
Proof.
  revert k. induction l as [| q l IH]; intros k Hk Hp; [reflexivity |].
  destruct k as [| k].
  - cbn in Hk. injection Hk as ->.
    change (delete 0%nat (p :: l)) with l. cbn [existsb]. now rewrite Hp.
  - change (delete (S k) (q :: l)) with (q :: delete k l). cbn [existsb].
    now rewrite (IH k Hk Hp).
Qed.

Lemma existsb_snoc_busy (l : list Pending) (p : Pending) :
  under_busy_flag p = true -> existsb under_busy_flag (l ++ [p]) = true.
Proof. intros Hp. rewrite existsb_app. cbn. rewrite Hp. apply orb_true_r. Qed.

Lemma sound_mounted : sound (fst mounted).
Proof. repeat split; cbn; try lia; discriminate. Qed.

Lemma sound_fire (email : string) (i : Input) (w w' : World) (t : list Event) :
  sound w -> fire email i w = Some (w', t) -> sound w'.
Proof.
  destruct w as [st l]. unfold sound at 1. cbn [ui inflight].
  intros (Hlen & Hwf & Hcd & Hbusy) Hf.
  destruct i as [text index | key index | | | | k a];
    unfold fire in Hf; cbn [ui inflight] in Hf.
  - destruct (_ && _) eqn:Hc in Hf; [| discriminate].
    apply andb_true_iff in Hc as [Hc _]. apply andb_true_iff in Hc as [Ht Hi].
    apply Nat.leb_le in Ht. apply Nat.ltb_lt in Hi.
    pose proof (onChangeText_state text index st) as Hst.
    destruct (onChangeText text index st) as [[c st'] t']. cbn in Hst, Hf.
    injection Hf as <- <-. subst st'. unfold sound. cbn.
    rewrite (assign_in_range _ _ _ Hi), length_insert.
    repeat split; auto; try lia.
    apply well_formed_insert; auto using is_cell_keep_digits.
  - destruct (_ && _) in Hf; [| discriminate].
    rewrite EntryFacts.handleKeyPress_runs in Hf. injection Hf as <- <-.
    unfold sound; cbn; repeat split; auto; try lia.
  - destruct (verify_disabled st) eqn:Hd; [injection Hf as <- <-; unfold sound; cbn; repeat split; auto; try lia |].
    rewrite handleVerify_begin_runs in Hf.
    destruct (String.length (join (verificationCode st)) =? 6)%nat;
      injection Hf as <- <-; unfold sound; cbn; repeat split; auto; try lia.
    intros _. now apply existsb_snoc_busy.
  - destruct (resend_disabled st) eqn:Hd; [injection Hf as <- <-; unfold sound; cbn; repeat split; auto; try lia |].
    rewrite handleResendCode_begin_runs in Hf.
    destruct (0 <? resendCooldown st)%Z;
      injection Hf as <- <-; unfold sound; cbn; repeat split; auto; try lia.
    intros _. now apply existsb_snoc_busy.
  - injection Hf as <- <-. unfold sound, cooldownTimer. cbn.
    destruct (Z.ltb_spec 0 (resendCooldown st)); cbn; unfold sound; cbn; repeat split; auto; try lia.
  - destruct (l !! k) as [[c | |] |] eqn:Hk; destruct a as [p | p | p];
      try discriminate.
    + rewrite checkVerificationStatus_resume_runs in Hf.
      assert (Hidle : forall ev, sound {| ui := st; inflight := delete k l |}
                                 /\ (ev : list Event) = ev).
      { intros ev. split; [| reflexivity]. unfold sound; cbn. repeat split; auto; try lia.
        intros Hb. rewrite (existsb_delete_idle _ _ _ Hk eq_refl). auto. }
      destruct p as [s | e]; [| injection Hf as <- <-; apply (Hidle [])].
      destruct (already_verified email s); [injection Hf as <- <-; apply (Hidle []) |].
      destruct (nonempty email && (c =? 0)%Z);
        [| injection Hf as <- <-; apply (Hidle [])].
      injection Hf as <- <-. unfold sound; cbn. repeat split; auto; try lia.
      intros _. now apply existsb_snoc_busy.
    + rewrite handleVerify_resume_runs in Hf.
      destruct p as [r | e]; [destruct (verify_error r) |];
        injection Hf as <- <-; unfold sound; cbn; repeat split; auto; try lia;
        discriminate.
    + rewrite handleResendCode_resume_runs in Hf.
      destruct p as [r | e]; [destruct (resend_error r) |];
        injection Hf as <- <-; unfold sound; cbn; repeat split; auto; try lia;
        discriminate.
Qed.

Lemma reachable_sound (email : string) (w : World) : reachable email w -> sound w.
Proof.
  induction 1 as [| w w' i t _ IH Hf]; [apply sound_mounted | exact (sound_fire _ _ _ _ _ IH Hf)].
Qed.

Lemma run_reachable (email : string) (inputs : list Input) (w w' : World)
    (t : list Event) :
  reachable email w -> run email inputs w = Some (w', t) -> reachable email w'.
Proof.
  revert w t. induction inputs as [| i rest IH]; intros w t Hw Hr; cbn in Hr.
  - injection Hr as <- _. exact Hw.
  - destruct (fire email i w) as [[w1 t1] |] eqn:Hf; [| discriminate].
    destruct (run email rest w1) as [[w2 t2] |] eqn:Hr2; [| discriminate].
    injection Hr as <- _.
    apply (IH w1 t2); [| exact Hr2]. exact (reachable_fire _ _ _ _ _ Hw Hf).
Qed.

(** Whatever the user types and presses, however the timer ticks and in
    whatever order and with whatever answers the calls in flight settle, the
    screen holds six cells, each empty or a single digit, and a cooldown
    between 0 and 60; and whenever the busy flag is set, a verify or resend
    call is in flight. *)
Theorem reachable_invariant (email : string) (w : World) :
  reachable email w ->
  List.length (verificationCode (ui w)) = 6%nat /\
  well_formed (verificationCode (ui w)) = true /\
  (0 <= resendCooldown (ui w) <= 60)%Z /\
  (isLoading (ui w) = true -> existsb under_busy_flag (inflight w) = true).
Proof.
  induction 1 as [| w w' i t _ IH Hf].
  - apply sound_mounted.
  - exact (sound_fire _ _ _ _ _ IH Hf).
Qed.

Lemma reachable_invariant_witness :
  well_formed
    (verificationCode
       (ui {| ui := with_verificationCode
                      ["1"; EmptyString; EmptyString; EmptyString; EmptyString;
                       EmptyString]
                      (with_isLoading true initial);
              inflight := [AwaitSession 0; AwaitResend] |})) = true.
Proof.
  apply (reachable_invariant "a@mail.utdt.edu").
  apply (run_reachable "a@mail.utdt.edu" [ChangeText "1" 0; ChangeText "x" 1; PressResend]
           (fst (mounted)) _ [Focus 1; Call (ResendVerificationEmail "a@mail.utdt.edu")]).
  - apply reachable_mounted.
  - reflexivity.
Defined.

(** At every turn, pressing the verify button sends the code to the provider
    exactly when the busy flag is off and all six cells are filled, and then
    it sends the six digits in order and sets the busy flag; with the busy
    flag on or a cell empty it makes no call. *)
Theorem reachable_submit (email : string) (w : World) :
  reachable email w ->
  exists w' t,
    fire email PressVerify w = Some (w', t) /\
    calls t =
      (if negb (isLoading (ui w)) && (filled (verificationCode (ui w)) =? 6)%nat
       then [Call (VerifyOTP email (join (verificationCode (ui w))))]
       else []) /\
    (calls t <> [] ->
     isLoading (ui w') = true /\ inflight w' = inflight w ++ [AwaitVerify]).
Proof.
  intros Hr. destruct (reachable_sound _ _ Hr) as (Hl & Hw & Hc & Hb).
  destruct w as [st l]. cbn [ui inflight] in *.
  unfold fire. cbn [ui inflight]. unfold verify_disabled.
  destruct (isLoading st); cbn [negb andb].
  - eexists _, _. split; [reflexivity |]. split; [reflexivity |].
    intros C. now contradiction C.
  - rewrite handleVerify_begin_runs, (length_join _ Hw).
    destruct (filled (verificationCode st) =? 6)%nat;
      eexists _, _; (split; [reflexivity |]); split; try reflexivity.
    + intros _. split; reflexivity.
    + intros C. now contradiction C.
Qed.

Lemma reachable_submit_witness :
  exists w' t,
    fire "a@mail.utdt.edu" PressVerify
      {| ui := with_verificationCode code_123456 initial;
         inflight := [AwaitSession 0] |} = Some (w', t) /\
    calls t = [Call (VerifyOTP "a@mail.utdt.edu" "123456")].
Proof.
  destruct (reachable_submit "a@mail.utdt.edu"
              {| ui := with_verificationCode code_123456 initial;
                 inflight := [AwaitSession 0] |}) as (w' & t & Hf & Hc & _).
  - apply (run_reachable "a@mail.utdt.edu" type_123456 (fst mounted) _
             [Focus 1; Focus 2; Focus 3; Focus 4; Focus 5]).
    + apply reachable_mounted.
    + reflexivity.
  - exists w', t. split; [exact Hf | exact Hc].
Defined.

(** At every turn, pressing the resend button calls the provider exactly
    when the busy flag is off and the cooldown is zero, and then it sets the
    busy flag; with the busy flag on or a cooldown running it makes no
    call. *)
Theorem reachable_resend (email : string) (w : World) :
  reachable email w ->
  exists w' t,
    fire email PressResend w = Some (w', t) /\
    calls t =
      (if negb (isLoading (ui w)) && (resendCooldown (ui w) =? 0)%Z
       then [Call (ResendVerificationEmail email)]
       else []) /\
    (calls t <> [] ->
     isLoading (ui w') = true /\ inflight w' = inflight w ++ [AwaitResend]).
Proof.
  intros Hr. destruct (reachable_sound _ _ Hr) as (Hl & Hw & Hc & Hb).
  destruct w as [st l]. cbn [ui inflight] in *.
  unfold fire. cbn [ui inflight]. unfold resend_disabled.
  rewrite handleResendCode_begin_runs.
  destruct (Z.ltb_spec 0 (resendCooldown st)) as [Hp | Hp]; cbn [orb].
  - destruct (Z.eqb_spec (resendCooldown st) 0) as [H0 | H0]; [lia |].
    rewrite andb_false_r.
    eexists _, _. split; [reflexivity |]. split; [reflexivity |].
    intros C. now contradiction C.
  - destruct (Z.eqb_spec (resendCooldown st) 0) as [H0 | H0]; [| lia].
    rewrite andb_true_r.
    destruct (isLoading st); cbn [negb];
      eexists _, _; (split; [reflexivity |]); split; try reflexivity.
    + intros C. now contradiction C.
    + intros _. split; reflexivity.
Qed.

Lemma reachable_resend_witness :
  exists w' t,
    fire "a@mail.utdt.edu" PressResend
      {| ui := with_isLoading true (with_verificationCode code_123456 initial);
         inflight := [AwaitSession 0; AwaitVerify] |} = Some (w', t) /\
    calls t = [].
Proof.
  destruct (reachable_resend "a@mail.utdt.edu"
              {| ui := with_isLoading true (with_verificationCode code_123456 initial);
                 inflight := [AwaitSession 0; AwaitVerify] |})
    as (w' & t & Hf & Hc & _).
  - apply (run_reachable "a@mail.utdt.edu" (type_123456 ++ [PressVerify]) (fst mounted) _
             [Focus 1; Focus 2; Focus 3; Focus 4; Focus 5;
              Call (VerifyOTP "a@mail.utdt.edu" "123456")]).
    + apply reachable_mounted.
    + reflexivity.
  - exists w', t. split; [exact Hf | exact Hc].
Defined.

(** The busy flag does not cover a submit for as long as it is in flight:
    when the resend started by the mount effect settles first, the flag
    drops while the verify call is still awaited. *)
Lemma busy_flag_drops_during_submit :
  match run "a@mail.utdt.edu"
          (type_123456 ++
           [PressVerify; Settled 0 (SessionAnswer (Resolved None));
            Settled 1 (ResendAnswer resend_ok)])
          (fst mounted) with
  | Some (w, _) => isLoading (ui w) = false /\ inflight w = [AwaitVerify]
  | None => False
  end.
Proof. cbn. split; reflexivity. Qed.

End ReachableFacts.

(** ** Settings screen: sign-out and the deletion sequence *)

Module SettingsFacts.
Import Settings SettingsProps Machine.

(** Sign-out always makes its one call and clears its busy flag without
    touching the deletion flag. It then either navigates to sign-in (no
    error) or shows one alert and stays: the alert carries the error's
    message, or "Failed to sign out" when that is empty or missing. *)
Theorem handleSignOut_outcomes (api : Backend) (st : SState) :
  handleSignOut api st =
  (Normal tt,
   {| isSigningOut := false; isDeletingAccount := isDeletingAccount st |},
   Call SignOut ::
   match signOut api with
   | Resolved None => [RouterReplace "/auth/sign-in"]
   | Resolved (Some e) | Rejected e =>
       [AlertShown "Error"
          match message e with
          | Str (String c m) => String c m
          | _ => "Failed to sign out"
          end []]
   end).
Proof.
  unfold handleSignOut, setIsSigningOut, throw_if, bind, ret, modify, emit, await,
    catch, finally, throw.
  destruct (signOut api) as [[e |] | e]; cbn; try reflexivity;
    destruct (message e) as [| | [| c m]]; reflexivity.
Qed.

(** The deletion sequence never throws and always ends with its busy flag
    off and the sign-out flag as it was, whatever the backend answers. *)
Theorem confirmDeleteAccount_cleans_up (api : Backend) (st : SState) :
  completion (confirmDeleteAccount api st) = Normal tt /\
  final_state (confirmDeleteAccount api st) = after_delete st.
Proof.
  rewrite confirmDeleteAccount_runs.
  destruct (getUser api) as [[u |] | e]; [| split; reflexivity ..].
  destruct (deleteProfile api (user_id u)) as [[e |] | e]; [split; reflexivity | |
    split; reflexivity].
  destruct (adminDeleteUser api (user_id u)) as [[e |] | e]; [split; reflexivity | |
    split; reflexivity].
  destruct (signOut api) as [o | e]; split; reflexivity.
Qed.

(** The destructive calls come in order and only for the fetched user: a
    profile is deleted only for the id of the user the lookup returned, and
    the auth identity is deleted only for that same id and only after the
    profile deletion returned without error. *)
Theorem destructive_calls_in_order (api : Backend) (st : SState) (id : string) :
  (In (Call (DeleteProfile id)) (trace (confirmDeleteAccount api st)) ->
   exists u, getUser api = Resolved (Some u) /\ id = user_id u) /\
  (In (Call (AdminDeleteUser id)) (trace (confirmDeleteAccount api st)) ->
   exists u, getUser api = Resolved (Some u) /\ id = user_id u /\
             deleteProfile api id = Resolved None /\
             exists t, trace (confirmDeleteAccount api st) =
                       Call GetUser :: Call (DeleteProfile id)
                       :: Call (AdminDeleteUser id) :: t).
Proof.
  rewrite confirmDeleteAccount_runs.
  destruct (getUser api) as [[u |] | e] eqn:Hu;
    [| split; cbn; intros H; repeat (destruct H as [[=] | H]); contradiction ..].
  destruct (deleteProfile api (user_id u)) as [[e |] | e] eqn:Hp.
  - split; cbn; intros H; repeat (destruct H as [[=] | H]); try contradiction.
    subst. eauto.
  - destruct (adminDeleteUser api (user_id u)) as [[e |] | e] eqn:Ha;
      [| destruct (signOut api) as [o | e] |];
      (split; cbn; intros H; repeat (destruct H as [[=] | H]); try contradiction;
       subst; eexists; repeat split; eauto).
  - split; cbn; intros H; repeat (destruct H as [[=] | H]); try contradiction.
    subst. eauto.
Qed.

Lemma destructive_calls_in_order_witness :
  exists u, getUser backend_sign_out_fails = Resolved (Some u) /\ "u1" = user_id u.
Proof.
  apply (proj1 (destructive_calls_in_order backend_sign_out_fails idle "u1")).
  cbn. right. left. reflexivity.
Defined.

(** The sequence navigates only to sign-in, only after the lookup found a
    user, both deletions returned without error and the sign-out promise
    resolved; and then it shows no alert. *)
Theorem navigation_only_after_both_deletions (api : Backend) (st : SState)
    (path : string) :
  In (RouterReplace path) (trace (confirmDeleteAccount api st)) ->
  path = "/auth/sign-in" /\
  List.filter is_alert (trace (confirmDeleteAccount api st)) = [] /\
  exists u o,
    getUser api = Resolved (Some u) /\
    deleteProfile api (user_id u) = Resolved None /\
    adminDeleteUser api (user_id u) = Resolved None /\
    signOut api = Resolved o.
Proof.
  rewrite confirmDeleteAccount_runs.
  destruct (getUser api) as [[u |] | e] eqn:Hu;
    [| cbn; intros H; repeat (destruct H as [[=] | H]); contradiction ..].
  destruct (deleteProfile api (user_id u)) as [[e |] | e] eqn:Hp;
    [cbn; intros H; repeat (destruct H as [[=] | H]); contradiction | |
     cbn; intros H; repeat (destruct H as [[=] | H]); contradiction].
  destruct (adminDeleteUser api (user_id u)) as [[e |] | e] eqn:Ha;
    [cbn; intros H; repeat (destruct H as [[=] | H]); contradiction | |
     cbn; intros H; repeat (destruct H as [[=] | H]); contradiction].
  destruct (signOut api) as [o | e] eqn:Hs;
    cbn; intros H; repeat (destruct H as [[=] | H]); try contradiction.
  subst. repeat split. exists u, o. auto.
Qed.

Lemma navigation_only_after_both_deletions_witness :
  List.filter is_alert (trace (confirmDeleteAccount backend_sign_out_fails idle)) = [].
Proof.
  apply (navigation_only_after_both_deletions backend_sign_out_fails idle "/auth/sign-in").
  cbn. do 4 right. left. reflexivity.
Defined.

(** When the profile deletion or the identity deletion fails, by an error
    result or a rejected promise, nothing more is called: no sign-out, no
    navigation, no call that would undo a profile deletion already made;
    one alert with the error's text is shown. *)
Theorem deletion_step_failure_aborts (api : Backend) (st : SState) (u : User)
    (e : JsError) :
  getUser api = Resolved (Some u) ->
  (deleteProfile api (user_id u) = Resolved (Some e)
   \/ deleteProfile api (user_id u) = Rejected e ->
   confirmDeleteAccount api st =
   (Normal tt, after_delete st,
    [Call GetUser; Call (DeleteProfile (user_id u));
     AlertShown "Error" (delete_alert_message e) []])) /\
  (deleteProfile api (user_id u) = Resolved None ->
   adminDeleteUser api (user_id u) = Resolved (Some e)
   \/ adminDeleteUser api (user_id u) = Rejected e ->
   confirmDeleteAccount api st =
   (Normal tt, after_delete st,
    [Call GetUser; Call (DeleteProfile (user_id u)); Call (AdminDeleteUser (user_id u));
     AlertShown "Error" (delete_alert_message e) []])).
Proof.
  intros Hu. rewrite confirmDeleteAccount_runs, Hu. split.
  - intros [-> | ->]; reflexivity.
  - intros -> [-> | ->]; reflexivity.
Qed.

Lemma deletion_step_failure_aborts_witness :
  trace (confirmDeleteAccount
           {| getUser := Resolved (Some some_user);
              deleteProfile := fun _ => Resolved None;
              adminDeleteUser := fun _ => Resolved (Some (Error "User not allowed"));
              signOut := Resolved None |} idle)
  = [Call GetUser; Call (DeleteProfile "u1"); Call (AdminDeleteUser "u1");
     AlertShown "Error" (delete_alert_message (Error "User not allowed")) []].
Proof.
  pose proof (deletion_step_failure_aborts
                {| getUser := Resolved (Some some_user);
                   deleteProfile := fun _ => Resolved None;
                   adminDeleteUser := fun _ => Resolved (Some (Error "User not allowed"));
                   signOut := Resolved None |} idle some_user
                (Error "User not allowed") eq_refl) as [_ H].
  rewrite H; [reflexivity | reflexivity | left; reflexivity].
Defined.

End SettingsFacts.

(** ** Sign-in screen: address validation and the two handlers *)

Module RegexFacts.
Import Regex.

Lemma append_empty_inv (u v : string) :
  (u ++ v)%string = EmptyString -> u = EmptyString /\ v = EmptyString.
Proof. destruct u; cbn; [auto | discriminate]. Qed.

Lemma nullable_lang (r : re) : nullable r = true <-> lang r EmptyString.
Proof.
  split.
  - induction r as [| | p | r IHr s IHs | r IHr s IHs | r IHr]; cbn; intros H;
      try discriminate.
    + constructor.
    + apply andb_true_iff in H as [Hr Hs].
      change EmptyString with (EmptyString ++ EmptyString)%string.
      constructor; auto.
    + apply orb_true_iff in H as [H | H]; [apply lang_alt_l | apply lang_alt_r]; auto.
    + constructor.
  - intros H. remember EmptyString as w eqn:Hw.
    induction H as [| p c Hp | r s u v Hu IHu Hv IHv | r s u Hu IHu | r s u Hu IHu
                    | r | r u v Hu IHu Hv IHv]; cbn; try reflexivity.
    + discriminate.
    + apply append_empty_inv in Hw as [-> ->].
      now rewrite IHu, IHv.
    + now rewrite IHu.
    + rewrite IHu by assumption. apply orb_true_r.
Qed.

Lemma deriv_sound (c : ascii) (r : re) (w : string) :
  lang (deriv c r) w -> lang r (String c w).
Proof.
  revert w.
  induction r as [| | p | r IHr s IHs | r IHr s IHs | r IHr]; cbn; intros w H.
  - inversion H.
  - inversion H.
  - destruct (p c) eqn:Hp; inversion H; subst. now constructor.
  - assert (Hcat : forall w, lang (Cat (deriv c r) s) w -> lang (Cat r s) (String c w)).
    { intros w' H'. inversion H'; subst.
      change (String c (u ++ v)) with (String c u ++ v)%string.
      constructor; auto. }
    destruct (nullable r) eqn:Hn; [| now apply Hcat].
    inversion H; subst; [now apply Hcat |].
    change (String c w) with (EmptyString ++ String c w)%string.
    constructor; [now apply nullable_lang | auto].
  - inversion H; subst; [apply lang_alt_l | apply lang_alt_r]; auto.
  - inversion H; subst.
    change (String c (u ++ v)) with (String c u ++ v)%string.
    constructor; auto.
Qed.

Lemma deriv_complete (c : ascii) (r : re) (w : string) :
  lang r (String c w) -> lang (deriv c r) w.
Proof.
  intros H. remember (String c w) as cw eqn:Hcw. revert c w Hcw.
  induction H as [| p c0 Hp | r s u v Hu IHu Hv IHv | r s u Hu IHu | r s u Hu IHu
                  | r | r u v Hu IHu Hv IHv]; intros c w Hcw; cbn.
  - discriminate.
  - injection Hcw as -> <-. rewrite Hp. constructor.
  - destruct u as [| c' u'].
    + cbn in Hcw. subst v.
      rewrite (proj2 (nullable_lang r) Hu). apply lang_alt_r. now apply IHv.
    + cbn in Hcw. injection Hcw as -> <-.
      assert (Hc : lang (Cat (deriv c r) s) (u' ++ v)) by (constructor; auto).
      destruct (nullable r); [now apply lang_alt_l | exact Hc].
  - apply lang_alt_l. now apply IHu.
  - apply lang_alt_r. now apply IHu.
  - discriminate.
  - destruct u as [| c' u'].
    + cbn in Hcw. subst v. now apply IHv.
    + cbn in Hcw. injection Hcw as -> <-. constructor; auto.
Qed.

(** The matcher decides membership in the language of the pattern. *)
Lemma test_lang (r : re) (w : string) : test r w = true <-> lang r w.
Proof.
  revert r. induction w as [| c w IH]; intros r; cbn.
  - apply nullable_lang.
  - rewrite IH. split; [apply deriv_sound | apply deriv_complete].
Qed.

Lemma lang_class_inv (p : ascii -> bool) (w : string) :
  lang (Class p) w <-> exists c, w = String c EmptyString /\ p c = true.
Proof.
  split.
  - intros H. inversion H; subst. eauto.
  - intros (c & -> & Hp). now constructor.
Qed.

Lemma lang_cat_inv (r s : re) (w : string) :
  lang (Cat r s) w <-> exists u v, w = (u ++ v)%string /\ lang r u /\ lang s v.
Proof.
  split.
  - intros H. inversion H; subst. eauto.
  - intros (u & v & -> & Hu & Hv). now constructor.
Qed.

Lemma lang_star_class (p : ascii -> bool) (w : string) :
  lang (Star (Class p)) w <-> all_of p w = true.
Proof.
  split.
  - intros H. remember (Star (Class p)) as r eqn:Hr.
    induction H as [| | | | | r | r u v Hu _ Hv IHv]; try discriminate; [reflexivity |].
    injection Hr as ->. apply lang_class_inv in Hu as (c & -> & Hc).
    cbn. rewrite Hc. now apply IHv.
  - induction w as [| c w IH]; cbn; intros H; [constructor |].
    apply andb_true_iff in H as [Hc Hw].
    change (String c w) with (String c EmptyString ++ w)%string.
    constructor; [now constructor | auto].
Qed.

Lemma lang_plus_class (p : ascii -> bool) (w : string) :
  lang (Plus (Class p)) w <-> nonempty w && all_of p w = true.
Proof.
  unfold Plus. rewrite lang_cat_inv. split.
  - intros (u & v & -> & Hu & Hv).
    apply lang_class_inv in Hu as (c & -> & Hc).
    apply lang_star_class in Hv. cbn. now rewrite Hc, Hv.
  - destruct w as [| c w]; cbn; [discriminate |]. intros H.
    apply andb_true_iff in H as [Hc Hw].
    exists (String c EmptyString), w. repeat split.
    + now constructor.
    + now apply lang_star_class.
Qed.

Lemma lang_chr (c : ascii) (w : string) :
  lang (Chr c) w <-> w = String c EmptyString.
Proof.
  unfold Chr. rewrite lang_class_inv. split.
  - intros (c' & -> & H). apply Ascii.eqb_eq in H. now subst.
  - intros ->. exists c. split; [reflexivity | apply Ascii.eqb_refl].
Qed.

End RegexFacts.

Module SignInFacts.
Import Regex RegexFacts SignIn.

(** *** The address pattern *)

(** The format check accepts exactly the addresses of the shape
    [local@domain.tld], where each of the three parts is non-empty and has
    neither white space nor an at sign. *)
Theorem emailRegex_shape (s : string) :
  test emailRegex s = true <->
  exists l d t : string,
    s = (l ++ "@" ++ d ++ "." ++ t)%string /\
    is_part l = true /\ is_part d = true /\ is_part t = true.
Proof.
  rewrite test_lang. unfold emailRegex, is_part. split.
  - intros H.
    apply lang_cat_inv in H as (l & r1 & -> & Hl & H).
    apply lang_cat_inv in H as (a & r2 & -> & Ha & H).
    apply lang_chr in Ha as ->.
    apply lang_cat_inv in H as (d & r3 & -> & Hd & H).
    apply lang_cat_inv in H as (dot & t & -> & Hdot & Ht).
    apply lang_chr in Hdot as ->.
    apply lang_plus_class in Hl, Hd, Ht.
    exists l, d, t. auto.
  - intros (l & d & t & -> & Hl & Hd & Ht).
    apply lang_plus_class in Hl, Hd, Ht.
    constructor; [exact Hl |].
    change ("@" ++ d ++ "." ++ t)%string
      with (String "@" EmptyString ++ d ++ String "." EmptyString ++ t)%string.
    constructor; [now apply lang_chr |].
    constructor; [exact Hd |].
    constructor; [now apply lang_chr | exact Ht].
Qed.

Lemma emailRegex_shape_witness :
  test emailRegex "student@mail.utdt.edu" = true.
Proof.
  apply (proj2 (emailRegex_shape "student@mail.utdt.edu")).
  exists "student", "mail.utdt", "edu". repeat split.
Defined.

(** *** Trimming *)

Lemma trim_start_empty (s : string) :
  trim_start s = EmptyString <-> all_of is_space s = true.
Proof.
  induction s as [| c s IH]; cbn; [tauto |].
  destruct (is_space c); cbn; [exact IH |]. split; discriminate.
Qed.

Lemma trim_start_head (s : string) :
  match trim_start s with
  | EmptyString => True
  | String c _ => is_space c = false
  end.
Proof.
  induction s as [| c s IH]; cbn; [exact I |].
  destruct (is_space c) eqn:Hc; [exact IH | exact Hc].
Qed.

Lemma trim_end_empty (s : string) :
  trim_end s = EmptyString <-> all_of is_space s = true.
Proof.
  induction s as [| c s IH]; cbn; [tauto |].
  destruct (trim_end s) as [| c' r] eqn:Ht.
  - destruct (is_space c); cbn; [tauto |]. split; discriminate.
  - split; [discriminate |]. intros H. apply andb_true_iff in H as [_ H].
    apply IH in H. discriminate.
Qed.

Lemma trim_empty (s : string) :
  trim s = EmptyString <-> all_of is_space s = true.
Proof.
  unfold trim. rewrite trim_end_empty. split.
  - intros H. apply trim_start_empty.
    pose proof (trim_start_head s) as Hh.
    destruct (trim_start s) as [| c r]; [reflexivity |].
    cbn in H. rewrite Hh in H. discriminate.
  - intros H. apply trim_start_empty in H. now rewrite H.
Qed.

Lemma is_part_not_blank (l rest : string) :
  is_part l = true -> all_of is_space (l ++ rest)%string = false.
Proof.
  unfold is_part. destruct l as [| c l]; cbn; [discriminate |].
  unfold not_space_at. destruct (is_space c); cbn; [discriminate | reflexivity].
Qed.

Lemma nonempty_false (s : string) : nonempty s = false <-> s = EmptyString.
Proof. destruct s; cbn; split; congruence. Qed.

(** *** [validateEmail] *)

(** The verdicts. An address passes exactly when it has the shape of
    the pattern and the domain check accepts it; it is "required" exactly
    when it is empty or all white space; it is "invalid" exactly when it is
    neither blank nor of that shape. The blank check never hides an address
    the pattern would accept. *)
Theorem validateEmail_verdicts (hook : AuthHook) (address : string) :
  (validateEmail hook address = None <->
   test emailRegex address = true /\ validateEmailDomain hook address = true) /\
  (validateEmail hook address = Some "Email is required" <->
   all_of is_space address = true) /\
  (validateEmail hook address = Some "Invalid email format" <->
   all_of is_space address = false /\ test emailRegex address = false) /\
  (validateEmail hook address = Some "Only @mail.utdt.edu email addresses are allowed" <->
   test emailRegex address = true /\ validateEmailDomain hook address = false).
Proof.
  unfold validateEmail.
  destruct (all_of is_space address) eqn:Hb.
  - pose proof (proj2 (trim_empty address) Hb) as Ht. rewrite Ht. cbn.
    assert (Hr : test emailRegex address = false).
    { destruct (test emailRegex address) eqn:Hr; [| reflexivity].
      apply emailRegex_shape in Hr as (l & d & t & -> & Hl & _).
      now rewrite (is_part_not_blank _ _ Hl) in Hb. }
    rewrite Hr. repeat split; try discriminate; try tauto;
      intros [H1 H2]; discriminate.
  - assert (Ht : nonempty (trim address) = true).
    { destruct (nonempty (trim address)) eqn:Hn; [reflexivity |].
      apply nonempty_false, trim_empty in Hn. congruence. }
    rewrite Ht. cbn.
    destruct (test emailRegex address); cbn;
      [destruct (validateEmailDomain hook address); cbn |];
      repeat split; try discriminate; try tauto; intros [H1 H2]; discriminate.
Qed.

Lemma validateEmail_verdicts_witness :
  validateEmail
    {| signIn := fun _ _ => Resolved None;
       resendVerificationEmail := fun _ => Resolved None;
       validateEmailDomain := fun _ => true |} "   " = Some "Email is required".
Proof.
  apply (validateEmail_verdicts
           {| signIn := fun _ _ => Resolved None;
              resendVerificationEmail := fun _ => Resolved None;
              validateEmailDomain := fun _ => true |} "   ").
  reflexivity.
Defined.

(** *** [includes] *)

Lemma prefix_spec (n s : string) :
  String.prefix n s = true <-> exists b, s = (n ++ b)%string.
Proof.
  revert s. induction n as [| c n IH]; intros s.
  - destruct s; cbn; split; eauto.
  - destruct s as [| c' s]; cbn.
    + split; [discriminate | intros (b & [=])].
    + destruct (ascii_dec c c') as [<- | Hne].
      * rewrite IH. split; intros (b & Hb); exists b; congruence.
      * split; [discriminate | intros (b & Hb); cbn in Hb; congruence].
Qed.

Lemma includes_spec (n s : string) :
  includes n s = true <-> exists a b, s = (a ++ n ++ b)%string.
Proof.
  induction s as [| c s IH].
  - cbn [includes]. rewrite orb_false_r, prefix_spec. split.
    + intros (b & Hb). exists EmptyString, b. exact Hb.
    + intros (a & b & Hab). destruct a; [eauto | discriminate].
  - cbn [includes]. rewrite orb_true_iff, prefix_spec, IH. split.
    + intros [(b & Hb) | (a & b & Hab)].
      * exists EmptyString, b. exact Hb.
      * exists (String c a), b. cbn. now rewrite Hab.
    + intros (a & b & Hab). destruct a as [| c' a].
      * left. exists b. exact Hab.
      * right. cbn in Hab. injection Hab as -> ->. eauto.
Qed.

(** *** [handleSignIn] *)

(** Sign-in is stopped before the provider is reached when the address does
    not pass validation or the password is empty: no call is made, the busy
    flag is not touched, the resend button is hidden, and the banner shows
    the address verdict, or "Password is required" when only the password is
    missing. *)
Theorem handleSignIn_stopped (hook : AuthHook) (type_error : JsError) (st : SIState) :
  validateEmail hook (email st) <> None \/ password st = EmptyString ->
  handleSignIn hook type_error st =
  ({| email := email st; password := password st;
      error := Some match validateEmail hook (email st) with
                    | Some verdict => verdict
                    | None => "Password is required"
                    end;
      isLoading := isLoading st; showPassword := showPassword st;
      needsVerification := false |},
   []).
Proof.
  destruct st as [em pw er ld sp nv]. cbn [email password isLoading showPassword].
  intros H. unfold handleSignIn. cbn.
  destruct (validateEmail hook em) as [m |]; [reflexivity |].
  destruct H as [H | ->]; [contradiction | reflexivity].
Qed.

Lemma handleSignIn_stopped_witness :
  handleSignIn
    {| signIn := fun _ _ => Resolved None;
       resendVerificationEmail := fun _ => Resolved None;
       validateEmailDomain := fun _ => true |}
    (Error "Cannot read properties of undefined")
    (setEmail "student@mail.utdt.edu" initial)
  = (setError (Some "Password is required") (setEmail "student@mail.utdt.edu" initial), []).
Proof.
  rewrite (handleSignIn_stopped
             {| signIn := fun _ _ => Resolved None;
                resendVerificationEmail := fun _ => Resolved None;
                validateEmailDomain := fun _ => true |}
             (Error "Cannot read properties of undefined")
             (setEmail "student@mail.utdt.edu" initial)).
  - reflexivity.
  - right. reflexivity.
Defined.

(** With a valid address and a password, sign-in calls the provider once,
    with the address and the password as typed, and ends with the busy flag
    off. The banner is empty exactly when the provider returned no error,
    and the resend button is shown exactly when the provider returned an
    error whose message contains "Email not confirmed". *)
Theorem handleSignIn_submitted (hook : AuthHook) (type_error : JsError) (st : SIState) :
  validateEmail hook (email st) = None ->
  nonempty (password st) = true ->
  snd (handleSignIn hook type_error st) = [SignInCall (email st) (password st)] /\
  isLoading (fst (handleSignIn hook type_error st)) = false /\
  email (fst (handleSignIn hook type_error st)) = email st /\
  password (fst (handleSignIn hook type_error st)) = password st /\
  (error (fst (handleSignIn hook type_error st)) = None <->
   signIn hook (email st) (password st) = Resolved None) /\
  (needsVerification (fst (handleSignIn hook type_error st)) = true <->
   exists e a b,
     signIn hook (email st) (password st) = Resolved (Some e) /\
     message e = Str (a ++ "Email not confirmed" ++ b)%string).
Proof.
  intros Hv Hp. unfold handleSignIn, sign_in_attempt. cbn.
  rewrite Hv, Hp. cbn.
  destruct (signIn hook (email st) (password st)) as [[e |] | e] eqn:Hs.
  - destruct (message e) as [| | m] eqn:Hm; cbn.
    + repeat split; try discriminate.
      intros (e' & a & b & [= <-] & H). congruence.
    + repeat split; try discriminate.
      intros (e' & a & b & [= <-] & H). congruence.
    + destruct (includes "Email not confirmed" m) eqn:Hi; cbn; rewrite Hm; cbn.
      * repeat split; try discriminate.
        intros _. apply includes_spec in Hi as (a & b & ->).
        exists e, a, b. split; [reflexivity | exact Hm].
      * repeat split; try discriminate.
        intros (e' & a & b & [= <-] & H).
        rewrite Hm in H. injection H as H.
        assert (Hi' : includes "Email not confirmed" m = true)
          by (apply includes_spec; exists a, b; exact H).
        congruence.
  - cbn. repeat split; try discriminate.
    intros (e' & a & b & [=] & _).
  - cbn. repeat split; try discriminate.
    intros (e' & a & b & [=] & _).
Qed.

Lemma handleSignIn_submitted_witness :
  needsVerification
    (fst (handleSignIn
            {| signIn := fun _ _ => Resolved (Some (Error "Email not confirmed"));
               resendVerificationEmail := fun _ => Resolved None;
               validateEmailDomain := fun _ => true |}
            (Error "Cannot read properties of undefined")
            (setPassword "hunter2" (setEmail "student@mail.utdt.edu" initial))))
  = true.
Proof.
  apply (handleSignIn_submitted
           {| signIn := fun _ _ => Resolved (Some (Error "Email not confirmed"));
              resendVerificationEmail := fun _ => Resolved None;
              validateEmailDomain := fun _ => true |}
           (Error "Cannot read properties of undefined")
           (setPassword "hunter2" (setEmail "student@mail.utdt.edu" initial))).
  - reflexivity.
  - reflexivity.
  - exists (Error "Email not confirmed"), EmptyString, EmptyString.
    split; reflexivity.
Defined.

(** *** [handleResendVerification] *)

(** The sign-in screen opens the verification screen only from its resend
    handler, only for the address typed, and only after a resend to that
    address returned without error; it then leaves no error and the busy
    flag off. With an empty address nothing is called at all. *)
Theorem handleResendVerification_opens_verify (hook : AuthHook) (st : SIState)
    (pathname param : string) :
  (In (RouterPush pathname param) (snd (handleResendVerification hook st)) ->
   pathname = "/auth/verify" /\ param = email st /\ nonempty (email st) = true /\
   resendVerificationEmail hook (email st) = Resolved None /\
   snd (handleResendVerification hook st)
   = [ResendCall (email st); RouterPush "/auth/verify" (email st)] /\
   error (fst (handleResendVerification hook st)) = None /\
   isLoading (fst (handleResendVerification hook st)) = false) /\
  (email st = EmptyString ->
   handleResendVerification hook st
   = (setError (Some "Please enter your email address") st, [])).
Proof.
  unfold handleResendVerification. split.
  - destruct (nonempty (email st)) eqn:He; cbn;
      [| intros H; contradiction].
    destruct (resendVerificationEmail hook (email st)) as [[e |] | e]; cbn;
      intros H; repeat (destruct H as [[=] | H]); try contradiction.
    subst. repeat split.
  - intros ->. reflexivity.
Qed.

Lemma handleResendVerification_opens_verify_witness :
  handleResendVerification
    {| signIn := fun _ _ => Resolved None;
       resendVerificationEmail := fun _ => Resolved None;
       validateEmailDomain := fun _ => true |} initial
  = (setError (Some "Please enter your email address") initial, []).
Proof.
  apply (handleResendVerification_opens_verify
           {| signIn := fun _ _ => Resolved None;
              resendVerificationEmail := fun _ => Resolved None;
              validateEmailDomain := fun _ => true |} initial
           EmptyString EmptyString).
  reflexivity.
Defined.

(** A resend that the provider refuses keeps the user on the sign-in
    screen: one call, no navigation, the busy flag off, and the banner shows
    the error's message, or the generic resend text when that is empty or
    missing. *)
Theorem handleResendVerification_failure (hook : AuthHook) (st : SIState) (e : JsError) :
  nonempty (email st) = true ->
  resendVerificationEmail hook (email st) = Resolved (Some e)
  \/ resendVerificationEmail hook (email st) = Rejected e ->
  handleResendVerification hook st =
  ({| email := email st; password := password st;
      error := Some match message e with
                    | Str (String c m) => String c m
                    | _ => "Failed to resend verification email"
                    end;
      isLoading := false; showPassword := showPassword st;
      needsVerification := needsVerification st |},
   [ResendCall (email st)]).
Proof.
  intros He Hr. unfold handleResendVerification. rewrite He. cbn.
  destruct Hr as [-> | ->]; cbn;
    destruct (message e) as [| | [| c m]]; reflexivity.
Qed.

Lemma handleResendVerification_failure_witness :
  snd (handleResendVerification
         {| signIn := fun _ _ => Resolved None;
            resendVerificationEmail := fun _ => Rejected (Error "Network request failed");
            validateEmailDomain := fun _ => true |}
         (setEmail "student@mail.utdt.edu" initial))
  = [ResendCall "student@mail.utdt.edu"].
Proof.
  rewrite (handleResendVerification_failure
             {| signIn := fun _ _ => Resolved None;
                resendVerificationEmail :=
                  fun _ => Rejected (Error "Network request failed");
                validateEmailDomain := fun _ => true |}
             (setEmail "student@mail.utdt.edu" initial)
             (Error "Network request failed")).
  - reflexivity.
  - reflexivity.
  - right. reflexivity.
Defined.

End SignInFacts.

(** ** From the sign-in screen to the verification screen *)

Module FlowFacts.
Import Machine.

(** Resending from the sign-in screen sends the code twice: the handler
    calls the provider and opens the verification screen for the address,
    and that screen, mounted fresh for the same address while the session
    does not show it confirmed, calls the provider again. The mount effect
    is the one of the first render, whose cooldown is that of the initial
    state. *)
Theorem resend_then_mount_sends_again (hook : SignIn.AuthHook) (st : SignIn.SIState)
    (api : Verify.AuthApi) (s : option Session) :
  nonempty (SignIn.email st) = true ->
  SignIn.resendVerificationEmail hook (SignIn.email st) = Resolved None ->
  Verify.getSession api = Resolved s ->
  Verify.already_verified (SignIn.email st) s = false ->
  snd (SignIn.handleResendVerification hook st)
  = [SignIn.ResendCall (SignIn.email st);
     SignIn.RouterPush "/auth/verify" (SignIn.email st)] /\
  calls (trace (Verify.checkVerificationStatus (SignIn.email st) api
                  (Verify.resendCooldown Verify.initial) Verify.initial))
  = [Call GetSession; Call (ResendVerificationEmail (SignIn.email st))].
Proof.
  intros He Hr Hs Hv. split.
  - unfold SignIn.handleResendVerification. rewrite He. cbn. now rewrite Hr.
  - unfold Verify.checkVerificationStatus, catch, bind, await, emit, ret.
    rewrite Hs, Hv, He.
    change (Verify.resendCooldown Verify.initial =? 0)%Z with true. cbn [andb].
    change (Verify.resendCooldown Verify.initial) with 0%Z.
    rewrite VerifyFacts.handleResendCode_from_zero.
    destruct (Verify.resendVerificationEmail api (SignIn.email st)) as [[[e |]] | e];
      reflexivity.
Qed.

Lemma resend_then_mount_sends_again_witness :
  calls (trace (Verify.checkVerificationStatus "student@mail.utdt.edu"
                  (Verify.api_with Verify.verify_signed_in Verify.resend_ok)
                  (Verify.resendCooldown Verify.initial) Verify.initial))
  = [Call GetSession; Call (ResendVerificationEmail "student@mail.utdt.edu")].
Proof.
  apply (resend_then_mount_sends_again
           {| SignIn.signIn := fun _ _ => Resolved None;
              SignIn.resendVerificationEmail := fun _ => Resolved None;
              SignIn.validateEmailDomain := fun _ => true |}
           (SignIn.setEmail "student@mail.utdt.edu" SignIn.initial)
           (Verify.api_with Verify.verify_signed_in Verify.resend_ok)
           None); reflexivity.
Defined.

End FlowFacts.
